(** * FitnessTracker (python_exam.py): a shallow embedding and its properties

    The program keeps a table of activity records in a pandas DataFrame,
    reloads it from a CSV file at start-up and rewrites the file after
    every append.  This development embeds

    - the Python built-ins the tracker calls ([str.strip], [str.lower],
      [int], [datetime.strptime] with the format [%Y-%m-%d]);
    - the DataFrame as the list of its rows, with the pandas operations
      the tracker uses ([to_csv], [read_csv], [dropna], [concat],
      [groupby(...).agg], boolean-mask selection);
    - the methods of [FitnessTracker] in a state-and-exception monad over
      the tracker's [df], the file at [csv_path] and the console;
    - the console prompts [get_input] and [prompt_activity] and the loop
      of [main_menu], over the tracker and the lines still to be typed.

    Modelling conventions.

    - Text is ASCII text: [strip], [lower], [int] and the [\d] of the
      [strptime] pattern are those of Python on ASCII characters.  A
      statement about which texts are accepted, matched or trimmed says so
      with [ascii_text].
    - A [datetime] is a calendar day at midnight, which is all [strptime]
      with [%Y-%m-%d] produces; the nanosecond range of a pandas Timestamp
      is not modelled.
    - The numeric columns are int64 columns holding integers ([Z]); a
      [groupby] sum wraps around as 64-bit addition does.  A statement
      about a total as a number keeps the absolute values that are added
      below 2^53 in sum: within that bound an int64 column and a float64
      column hold and add the same numbers exactly.  A mean is the exact
      rational that the float64 result approximates.
    - The CSV file is modelled after tokenising, as a table of lines of
      four text cells; quoting is left to [to_csv] and [read_csv].  The
      type inference of [read_csv] is not modelled: the activity type of a
      loaded row is the text of its cell.  A statement that depends on
      the activity types being held as text, as [add_activity] stores
      them, takes types that [read_csv] keeps as text ([text_typed]).
    - [pd.to_datetime] and [pd.to_numeric] with [errors='coerce'] are
      parameters of [_load_data].
    - The path and the exception text that the program interpolates into
      three of its messages are left out of the printed lines.
    - The console holds what [print] wrote and the prompts [input] wrote,
      in order.  The text that [print] shows for a frame and the drawing
      calls of the plot methods are parameters of [main_menu]; its loop
      is given a number of turns. *)

From Stdlib Require Import ZArith List Bool Ascii String Lia.
From Stdlib Require Import QArith Qreduction Permutation Sorted DecimalString.
Import ListNotations.

Local Open Scope string_scope.
Local Open Scope list_scope.
Local Open Scope Z_scope.

(* ================================================================== *)
(** ** Python text primitives *)

Module Py.

Definition text := list ascii.

Definition code (c : ascii) : Z := Z.of_nat (nat_of_ascii c).

Definition is_digit (c : ascii) : bool := (48 <=? code c) && (code c <=? 57).

Definition in_range (lo hi : ascii) (c : ascii) : bool :=
  (code lo <=? code c) && (code c <=? code hi).

(** [str.isspace] on ASCII: TAB..CR, FS..US and the blank. *)
Definition is_space (c : ascii) : bool :=
  ((9 <=? code c) && (code c <=? 13)) || ((28 <=? code c) && (code c <=? 32)).

Fixpoint lstrip (s : text) : text :=
  match s with
  | c :: r => if is_space c then lstrip r else s
  | [] => []
  end.

Definition rstrip (s : text) : text := rev (lstrip (rev s)).

(** [s.strip()] *)
Definition strip_text (s : text) : text := rstrip (lstrip s).

Definition strip (s : string) : string :=
  string_of_list_ascii (strip_text (list_ascii_of_string s)).

Definition lower_char (c : ascii) : ascii :=
  if (65 <=? code c) && (code c <=? 90)
  then ascii_of_nat (nat_of_ascii c + 32)
  else c.

(** [s.lower()] *)
Definition lower (s : string) : string :=
  string_of_list_ascii (map lower_char (list_ascii_of_string s)).

Definition digit_val (c : ascii) : Z := code c - 48.

(** The digits of an integer literal; [int] allows single underscores
    between digits. *)
Fixpoint int_digits (acc : Z) (prev_digit : bool) (s : text) : option Z :=
  match s with
  | [] => if prev_digit then Some acc else None
  | c :: r =>
      if is_digit c then int_digits (10 * acc + digit_val c) true r
      else if (code c =? 95) && prev_digit then int_digits acc false r
      else None
  end.

(** The whitespace [int] skips around a literal: TAB..CR and the blank.
    The separators FS..US, which [strip] drops, stay in place here and
    make the literal invalid. *)
Definition is_c_space (c : ascii) : bool :=
  ((9 <=? code c) && (code c <=? 13)) || (code c =? 32).

Fixpoint skip_space (s : text) : text :=
  match s with
  | c :: r => if is_c_space c then skip_space r else s
  | [] => []
  end.

Definition int_literal (s : text) : text := rev (skip_space (rev (skip_space s))).

(** [sys.get_int_max_str_digits()], at its default. *)
Definition max_str_digits : nat := 4300.

(** [int(s)] for a [str]: surrounding whitespace is dropped, one sign is
    allowed, and a literal of more than [max_str_digits] digits is
    refused; [None] stands for [ValueError]. *)
Definition int_of_text (s : text) : option Z :=
  match int_literal s with
  | c :: r =>
      if (max_str_digits <? List.length (filter is_digit (c :: r)))%nat then None
      else if code c =? 45 then option_map Z.opp (int_digits 0 false r)
      else if code c =? 43 then int_digits 0 false r
      else int_digits 0 false (c :: r)
  | [] => None
  end.

(** What [add_activity] may be handed for a number: an [int] (what the
    console prompt passes after its own cast) or a [str]. *)
Inductive value :=
| VInt (n : Z)
| VStr (s : string).

(** [int(v)] *)
Definition int (v : value) : option Z :=
  match v with
  | VInt n => Some n
  | VStr s => int_of_text (list_ascii_of_string s)
  end.

End Py.

(* ================================================================== *)
(** ** [datetime] values and [datetime.strptime(s, "%Y-%m-%d")] *)

Module Datetime.
Import Py.

(** A [datetime] at midnight. *)
Record datetime := mkdate { year : Z; month : Z; day : Z }.

Definition is_leap (y : Z) : bool :=
  ((y mod 4 =? 0) && negb (y mod 100 =? 0)) || (y mod 400 =? 0).

Definition days_in_month (y m : Z) : Z :=
  if m =? 2 then (if is_leap y then 29 else 28)
  else if (m =? 4) || (m =? 6) || (m =? 9) || (m =? 11) then 30
  else 31.

(** The constructor [datetime(y, m, d)]; [None] stands for [ValueError]. *)
Definition make (y m d : Z) : option datetime :=
  if (1 <=? y) && (y <=? 9999) && (1 <=? m) && (m <=? 12)
     && (1 <=? d) && (d <=? days_in_month y m)
  then Some (mkdate y m d) else None.

Definition valid (t : datetime) : Prop :=
  make (year t) (month t) (day t) = Some t.

(** Comparison of two datetimes, as [<=], [==] do. *)
Definition leb (a b : datetime) : bool :=
  (year a <? year b)
  || ((year a =? year b)
      && ((month a <? month b)
          || ((month a =? month b) && (day a <=? day b)))).

Definition eqb (a b : datetime) : bool :=
  (year a =? year b) && (month a =? month b) && (day a =? day b).

Definition eq_dec (a b : datetime) : {a = b} + {a <> b}.
Proof. decide equality; apply Z.eq_dec. Defined.

(** *** The regular expression of the format

    [_strptime] turns [%Y-%m-%d] into the pattern
    [(?P<Y>\d\d\d\d)-(?P<m>1[0-2]|0[1-9]|[1-9])-(?P<d>3[0-1]|[1-2]\d|0[1-9]|[1-9]| [1-9])]
    and matches it at the start of the text.  A matcher lists its matches
    in the order in which a backtracking engine tries them. *)

Definition matcher (A : Type) := text -> list (A * text).

Definition re_ret {A} (a : A) : matcher A := fun s => [(a, s)].

Definition re_bind {A B} (p : matcher A) (k : A -> matcher B) : matcher B :=
  fun s => flat_map (fun ar => k (fst ar) (snd ar)) (p s).

Definition re_alt {A} (p q : matcher A) : matcher A := fun s => p s ++ q s.

Definition re_char (ok : ascii -> bool) : matcher text :=
  fun s => match s with
           | c :: r => if ok c then [([c], r)] else []
           | [] => []
           end.

Definition re_seq (p q : matcher text) : matcher text :=
  re_bind p (fun x => re_bind q (fun y => re_ret (x ++ y))).

Definition lit (c : ascii) : matcher text := re_char (Ascii.eqb c).
Definition cls (lo hi : ascii) : matcher text := re_char (in_range lo hi).
Definition dig : matcher text := re_char is_digit.

Definition group_Y : matcher text := re_seq dig (re_seq dig (re_seq dig dig)).

Definition group_m : matcher text :=
  re_alt (re_seq (lit "1") (cls "0" "2"))
 (re_alt (re_seq (lit "0") (cls "1" "9"))
         (cls "1" "9")).

Definition group_d : matcher text :=
  re_alt (re_seq (lit "3") (cls "0" "1"))
 (re_alt (re_seq (cls "1" "2") dig)
 (re_alt (re_seq (lit "0") (cls "1" "9"))
 (re_alt (cls "1" "9")
         (re_seq (lit " ") (cls "1" "9"))))).

Definition format_regex : matcher (text * text * text) :=
  re_bind group_Y (fun y =>
  re_bind (lit "-") (fun _ =>
  re_bind group_m (fun m =>
  re_bind (lit "-") (fun _ =>
  re_bind group_d (fun d =>
  re_ret (y, m, d)))))).

(** [datetime.strptime(s, "%Y-%m-%d")]: the first match of the pattern
    must end at the end of the text (else "unconverted data remains"),
    the three groups are read with [int], and the date must exist.
    [None] stands for [ValueError]. *)
Definition strptime (s : string) : option datetime :=
  match format_regex (list_ascii_of_string s) with
  | ((y, m, d), []) :: _ =>
      match int_of_text y, int_of_text m, int_of_text d with
      | Some y', Some m', Some d' => make y' m' d'
      | _, _, _ => None
      end
  | _ => None
  end.

Definition digit_char (n : Z) : ascii := ascii_of_nat (Z.to_nat (48 + n mod 10)).

Definition two_digits (n : Z) : text := [digit_char (n / 10); digit_char n].

Definition year_text (y : Z) : text :=
  [digit_char (y / 1000); digit_char (y / 100); digit_char (y / 10); digit_char y].

(** The text pandas writes for a midnight timestamp: [%Y-%m-%d],
    zero padded. *)
Definition isoformat (t : datetime) : string :=
  string_of_list_ascii
    (year_text (year t) ++ "-"%char :: two_digits (month t)
                        ++ "-"%char :: two_digits (day t)).

End Datetime.

(* ================================================================== *)
(** ** The DataFrame and the pandas operations the tracker calls *)

Module Pandas.
Import Datetime.

(** One row of [self.df], columns as in [self.columns]. *)
Record row := mkrow {
  date : datetime;
  activity_type : string;
  duration : Z;
  calories_burned : Z
}.

Definition DataFrame := list row.

Definition row_eq_dec (a b : row) : {a = b} + {a <> b}.
Proof.
  decide equality; try apply Z.eq_dec; try apply string_dec; apply Datetime.eq_dec.
Defined.

(** *** The CSV file, tokenised

    A data line is its four cells as text; a line with fewer fields reads
    as if the missing ones were empty.  [Unreadable] is a file on which
    [pd.read_csv] (or the column lookups after it) raises: no header, a
    line with too many fields, a missing column. *)
Record csv_row := mkcsv {
  c_date : string;
  c_type : string;
  c_duration : string;
  c_calories : string
}.

Inductive csv_file :=
| Unreadable
| Table (lines : list csv_row).

Definition str_of_int (n : Z) : string := NilZero.string_of_int (Z.to_int n).

(** The line [to_csv] writes for a row of a frame whose date column is a
    datetime64 column of midnights and whose numeric columns are int64
    columns. *)
Definition csv_of_row (r : row) : csv_row :=
  mkcsv (isoformat (date r)) (activity_type r)
        (str_of_int (duration r)) (str_of_int (calories_burned r)).

(** [df.to_csv(path, index=False)], the content written. *)
Definition to_csv (df : DataFrame) : csv_file := Table (map csv_of_row df).

(** The texts [pd.read_csv] reads as a missing value by default. *)
Definition na_values : list string :=
  [ ""; "#N/A"; "#N/A N/A"; "#NA"; "-1.#IND"; "-1.#QNAN"; "-NaN"; "-nan";
    "1.#IND"; "1.#QNAN"; "<NA>"; "N/A"; "NA"; "NULL"; "NaN"; "None";
    "n/a"; "nan"; "null" ].

Definition is_na (s : string) : bool := existsb (String.eqb s) na_values.

(** A cell of the frame [pd.read_csv] returns: [None] is NaN. *)
Definition read_cell (s : string) : option string :=
  if is_na s then None else Some s.

Record raw_row := mkraw {
  r_date : option string;
  r_type : option string;
  r_duration : option string;
  r_calories : option string
}.

Definition read_line (l : csv_row) : raw_row :=
  mkraw (read_cell (c_date l)) (read_cell (c_type l))
        (read_cell (c_duration l)) (read_cell (c_calories l)).

(** [errors='coerce']: a value that does not convert becomes NaN/NaT, and
    NaN stays NaN. *)
Definition coerce {A} (conv : string -> option A) (cell : option string) : option A :=
  match cell with
  | Some s => conv s
  | None => None
  end.

(** A row after the three column assignments of [_load_data]. *)
Record typed_row := mktyped {
  t_date : option datetime;
  t_type : option string;
  t_duration : option Z;
  t_calories : option Z
}.

(** [df.dropna(subset=columns)] keeps the rows with no NaN in the four
    columns. *)
Definition complete (t : typed_row) : option row :=
  match t_date t, t_type t, t_duration t, t_calories t with
  | Some d, Some a, Some n, Some c => Some (mkrow d a n c)
  | _, _, _, _ => None
  end.

Fixpoint dropna (l : list typed_row) : DataFrame :=
  match l with
  | [] => []
  | t :: r =>
      match complete t with
      | Some x => x :: dropna r
      | None => dropna r
      end
  end.

(** *** [groupby(key).agg(...)] with the default [sort=True]: one output
    row per distinct key, keys ascending. *)
Section GroupBy.
Context {K : Type}.
Variable K_eq_dec : forall a b : K, {a = b} + {a <> b}.
Variable K_leb : K -> K -> bool.

Fixpoint insert_key (k : K) (l : list K) : list K :=
  match l with
  | [] => [k]
  | x :: r => if K_leb k x then k :: l else x :: insert_key k r
  end.

Definition sort_keys (l : list K) : list K := fold_right insert_key [] l.

Definition group_keys (key : row -> K) (df : DataFrame) : list K :=
  sort_keys (nodup K_eq_dec (map key df)).

Definition has_key (key : row -> K) (k : K) (r : row) : bool :=
  if K_eq_dec (key r) k then true else false.

Definition get_group (key : row -> K) (k : K) (df : DataFrame) : DataFrame :=
  filter (has_key key k) df.

Definition groupby_agg {R} (key : row -> K) (agg : K -> DataFrame -> R)
  (df : DataFrame) : list R :=
  map (fun k => agg k (get_group key k df)) (group_keys key df).

End GroupBy.

(** What an int64 holds of an integer: its residue modulo 2^64, between
    -2^63 and 2^63 - 1. *)
Definition wrap64 (z : Z) : Z := (z + 2 ^ 63) mod 2 ^ 64 - 2 ^ 63.

(** The sum of an int64 column: 64-bit additions, each wrapping around. *)
Definition sum (l : list Z) : Z := fold_right (fun x acc => wrap64 (x + acc)) 0 l.

(** The mean of a non-empty column, as the exact rational; pandas returns
    a float64 close to it. *)
Definition mean (l : list Z) : Q := Qred (sum l # Pos.of_nat (List.length l)).

End Pandas.

(* ================================================================== *)
(** ** [class FitnessTracker] *)

Module Tracker.
Import Py Datetime Pandas.

(** What a method can read and change: the tracker's [df], the file at
    [csv_path] ([None]: no such file), whether that path can be written,
    and the lines printed so far. *)
Record state := mkstate {
  self_df : DataFrame;
  disk : option csv_file;
  writable : bool;
  console : list string
}.

Inductive exn := ValueError | OSError | ParserError | FileNotFoundError.

Inductive outcome (A : Type) :=
| Returned (a : A)
| Raised (e : exn).
Arguments Returned {A} a.
Arguments Raised {A} e.

Definition M (A : Type) := state -> outcome A * state.

Definition ret {A} (a : A) : M A := fun st => (Returned a, st).

Definition bind {A B} (m : M A) (k : A -> M B) : M B :=
  fun st => match m st with
            | (Returned a, st') => k a st'
            | (Raised e, st') => (Raised e, st')
            end.

Definition raise {A} (e : exn) : M A := fun st => (Raised e, st).

Notation "x <- m ;; k" := (bind m (fun x => k))
  (at level 61, m at next level, right associativity).
Notation "m ;; k" := (bind m (fun _ => k))
  (at level 61, right associativity).

(** [try: body  except ValueError: handler] *)
Definition try_except_ValueError {A} (body handler : M A) : M A :=
  fun st => match body st with
            | (Raised ValueError, st') => handler st'
            | other => other
            end.

(** [try: body  except Exception as e: handler] *)
Definition try_except_Exception {A} (body handler : M A) : M A :=
  fun st => match body st with
            | (Raised _, st') => handler st'
            | other => other
            end.

Definition print (msg : string) : M unit :=
  fun st => (Returned tt,
             mkstate (self_df st) (disk st) (writable st) (console st ++ [msg])).

Definition get_df : M DataFrame := fun st => (Returned (self_df st), st).

Definition set_df (df : DataFrame) : M unit :=
  fun st => (Returned tt, mkstate df (disk st) (writable st) (console st)).

(** [os.path.exists(self.csv_path)] *)
Definition path_exists : M bool :=
  fun st => (Returned (match disk st with Some _ => true | None => false end), st).

(** [pd.read_csv(self.csv_path)] *)
Definition read_csv : M (list raw_row) :=
  fun st => match disk st with
            | None => (Raised FileNotFoundError, st)
            | Some Unreadable => (Raised ParserError, st)
            | Some (Table lines) => (Returned (map read_line lines), st)
            end.

(** [df.to_csv(self.csv_path, index=False)] *)
Definition write_csv (df : DataFrame) : M unit :=
  fun st => if writable st
            then (Returned tt,
                  mkstate (self_df st) (Some (to_csv df)) (writable st) (console st))
            else (Raised OSError, st).

Definition strptime_m (s : string) : M datetime :=
  match strptime s with
  | Some d => ret d
  | None => raise ValueError
  end.

Definition int_m (v : value) : M Z :=
  match Py.int v with
  | Some n => ret n
  | None => raise ValueError
  end.

Section Load.
(** [pd.to_datetime(col, errors='coerce')] and
    [pd.to_numeric(col, errors='coerce')] are taken as given: what each
    makes of the text of one cell, given the column it converts. *)
Variable to_datetime : list (option string) -> string -> option datetime.
Variable to_numeric : list (option string) -> string -> option Z.

(** The three column assignments of [_load_data]. *)
Definition convert_columns (raw : list raw_row) : list typed_row :=
  let dates := map r_date raw in
  let durations := map r_duration raw in
  let calories := map r_calories raw in
  map (fun r => mktyped (coerce (to_datetime dates) (r_date r))
                        (r_type r)
                        (coerce (to_numeric durations) (r_duration r))
                        (coerce (to_numeric calories) (r_calories r)))
      raw.

Definition _load_data : M DataFrame :=
  found <- path_exists ;;
  if negb found then
    print "No file found. Starting new tracker." ;;
    ret []
  else
    try_except_Exception
      (df <- read_csv ;;
       ret (dropna (convert_columns df)))
      (print "Failed to load data" ;;
       ret []).

(** [__init__]: [self.df = self._load_data()] *)
Definition __init__ : M unit :=
  df <- _load_data ;;
  set_df df.

End Load.

Definition _save : M unit :=
  try_except_Exception
    (df <- get_df ;;
     write_csv df)
    (print "Failed to save data").

(** [pd.concat] appends the new row.  It is modelled on numbers that the
    column holds exactly; a number outside the 64-bit range makes pandas
    change the type of the whole column. *)
Definition add_activity (date_str activity_type : string) (duration calories : value)
  : M unit :=
  parsed <- try_except_ValueError
              (d <- strptime_m date_str ;; ret (Some d))
              (print "Invalid date. Use YYYY-MM-DD." ;; ret None) ;;
  match parsed with
  | None => ret tt
  | Some date =>
      let stripped := strip activity_type in
      n <- int_m duration ;;
      c <- int_m calories ;;
      let new_row := mkrow date stripped n c in
      df <- get_df ;;
      set_df (df ++ [new_row]) ;;
      _save ;;
      print "Activity added."
  end.

Record day_total := mkday {
  d_date : datetime;
  total_duration : Z;
  total_calories : Z
}.

Record trend := mktrend {
  t_activity_type : string;
  avg_duration : Q;
  avg_calories : Q
}.

Definition daily_summary : M (list day_total) :=
  df <- get_df ;;
  match df with
  | [] => print "No data available." ;; ret []
  | _ =>
      ret (groupby_agg Datetime.eq_dec Datetime.leb date
             (fun k g => mkday k (sum (map duration g)) (sum (map calories_burned g)))
             df)
  end.

Definition activity_trends : M (list trend) :=
  df <- get_df ;;
  match df with
  | [] => print "No data available." ;; ret []
  | _ =>
      ret (groupby_agg string_dec String.leb activity_type
             (fun k g => mktrend k (mean (map duration g)) (mean (map calories_burned g)))
             df)
  end.

Definition within (s e : datetime) (r : row) : bool :=
  Datetime.leb s (date r) && Datetime.leb (date r) e.

Definition filter_by_date (start_date end_date : string) : M DataFrame :=
  bounds <- try_except_ValueError
              (s <- strptime_m start_date ;;
               e <- strptime_m end_date ;;
               ret (Some (s, e)))
              (print "Invalid date format." ;; ret None) ;;
  match bounds with
  | None => ret []
  | Some (s, e) =>
      df <- get_df ;;
      ret (filter (within s e) df)
  end.

Definition same_type (query : string) (r : row) : bool :=
  String.eqb (lower (activity_type r)) (lower query).

(** The mask [self.df['activity_type'].str.lower() == activity_type.lower()],
    on a frame whose activity types are text.  (On a column that
    [read_csv] has typed as numbers the [.str] accessor raises; such a
    frame is not one of the model.) *)
Definition filter_by_type (query : string) : M DataFrame :=
  df <- get_df ;;
  ret (filter (same_type query) df).

End Tracker.

(* ================================================================== *)
(** ** The console prompts: [get_input] and [prompt_activity] *)

Module Shell.
Import Py Datetime Pandas Tracker.

(** A running program: the tracker with its file and its console, and the
    lines that are still to be typed. *)
Record session := mksession {
  tracker : state;
  stdin : list string
}.

(** How a call ends when it does not return: [input] finds no line left,
    or an exception comes out of the tracker.  [Unfinished] is not an end
    of the program: it marks a loop that was given too few turns. *)
Inductive stop :=
| EOFError
| Uncaught (e : exn)
| Unfinished.

Inductive result (A : Type) :=
| Done (a : A)
| Stopped (why : stop).
Arguments Done {A} a.
Arguments Stopped {A} why.

Definition SM (A : Type) := session -> result A * session.

Definition sm_ret {A} (a : A) : SM A := fun s => (Done a, s).

Definition sm_bind {A B} (m : SM A) (k : A -> SM B) : SM B :=
  fun s => match m s with
           | (Done a, s') => k a s'
           | (Stopped why, s') => (Stopped why, s')
           end.

Notation "x <-- m ;; k" := (sm_bind m (fun x => k))
  (at level 61, m at next level, right associativity).

(** A method call on the tracker. *)
Definition call {A} (m : M A) : SM A :=
  fun s => match m (tracker s) with
           | (Returned a, st') => (Done a, mksession st' (stdin s))
           | (Raised e, st') => (Stopped (Uncaught e), mksession st' (stdin s))
           end.

(** The [while True] loop of [get_input], one turn per typed line.
    [input(prompt)] writes the prompt and takes the next line, or raises
    [EOFError]; [cast_func] and [condition] give [None] when they raise,
    and [condition] else gives the truth value of its result; a turn that
    does not return prints [error]. *)
Fixpoint get_input_loop {A} (prompt : string) (cast_func : string -> option A)
  (condition : A -> option bool) (error : string)
  (lines out : list string) : result A * list string * list string :=
  match lines with
  | [] => (Stopped EOFError, [], out ++ [prompt])
  | val :: rest =>
      match cast_func val with
      | Some v =>
          match condition v with
          | Some true => (Done v, rest, out ++ [prompt])
          | _ => get_input_loop prompt cast_func condition error rest
                   (out ++ [prompt; error])
          end
      | None => get_input_loop prompt cast_func condition error rest
                  (out ++ [prompt; error])
      end
  end.

Definition get_input {A} (prompt : string) (cast_func : string -> option A)
  (condition : A -> option bool) (error : string) : SM A :=
  fun s =>
    match get_input_loop prompt cast_func condition error
            (stdin s) (console (tracker s)) with
    | (r, rest, out) =>
        (r, mksession (mkstate (self_df (tracker s)) (disk (tracker s))
                               (writable (tracker s)) out)
                      rest)
    end.

(** The casts and conditions that [prompt_activity] passes. *)
Definition str (val : string) : option string := Some val.

Definition int (val : string) : option Z := Py.int (VStr val).

Definition is_date (d : string) : option bool :=
  match strptime d with
  | Some _ => Some true
  | None => None
  end.

Definition not_blank (x : string) : option bool :=
  Some (negb (String.eqb (strip x) "")).

Definition above_zero (x : Z) : option bool := Some (0 <? x).

Definition zero_or_more (x : Z) : option bool := Some (0 <=? x).

Definition prompt_activity : SM unit :=
  date <-- get_input "Date (YYYY-MM-DD): " str is_date "Invalid date." ;;
  activity <-- get_input "Activity type: " str not_blank "Activity can't be empty." ;;
  duration <-- get_input "Duration (minutes): " int above_zero "Must be a positive number." ;;
  calories <-- get_input "Calories burned: " int zero_or_more "Must be zero or more." ;;
  call (add_activity date activity (VInt duration) (VInt calories)).

(** [input(prompt)] *)
Definition input (prompt : string) : SM string :=
  fun s =>
    let st := mkstate (self_df (tracker s)) (disk (tracker s)) (writable (tracker s))
                      (console (tracker s) ++ [prompt]) in
    match stdin s with
    | [] => (Stopped EOFError, mksession st [])
    | val :: rest => (Done val, mksession st rest)
    end.

Definition say (msg : string) : SM unit := call (print msg).

Section Menu.
Variable to_datetime : list (option string) -> string -> option datetime.
Variable to_numeric : list (option string) -> string -> option Z.

(** The text [print] shows for a frame (the [str] of a DataFrame) is
    taken as given. *)
Variable show_summary : list day_total -> string.
Variable show_trends : list trend -> string.
Variable show_frame : DataFrame -> string.

(** What the plot methods hand to seaborn and matplotlib. *)
Inductive figure :=
| Countplot (data : DataFrame)
| Lineplot (data : list day_total)
| Scatterplot (data : DataFrame).

(** Drawing and showing a figure is taken as given: it returns, or the
    library raises.  It gets the data and has no hold on [self.df] or on
    the file. *)
Variable show : figure -> option exn.

Definition draw (f : figure) : M unit :=
  match show f with
  | None => ret tt
  | Some e => raise e
  end.

Definition plot_activity_distribution : M unit :=
  bind get_df (fun df =>
  match df with
  | [] => print "No data to plot."
  | _ => draw (Countplot df)
  end).

Definition plot_calories_over_time : M unit :=
  bind daily_summary (fun summary =>
  match summary with
  | [] => print "No data to plot."
  | _ => draw (Lineplot summary)
  end).

Definition plot_duration_vs_calories : M unit :=
  bind get_df (fun df =>
  match df with
  | [] => print "No data to plot."
  | _ => draw (Scatterplot df)
  end).

Definition newline : string := String (ascii_of_nat 10) EmptyString.

(** One turn of the [while True] loop of [main_menu]; [false] is
    [break]. *)
Definition menu_turn : SM bool :=
  _ <-- say (newline ++ "--- Fitness Tracker ---") ;;
  _ <-- say "1. Add Activity" ;;
  _ <-- say "2. View Daily Summary" ;;
  _ <-- say "3. View Activity Trends" ;;
  _ <-- say "4. Filter by Date" ;;
  _ <-- say "5. Filter by Activity Type" ;;
  _ <-- say "6. Visualizations" ;;
  _ <-- say "7. Exit" ;;
  choice <-- input "Choose an option: " ;;
  if String.eqb choice "1" then
    _ <-- prompt_activity ;;
    sm_ret true
  else if String.eqb choice "2" then
    summary <-- call daily_summary ;;
    _ <-- match summary with
          | [] => sm_ret tt
          | _ => say (show_summary summary)
          end ;;
    sm_ret true
  else if String.eqb choice "3" then
    trends <-- call activity_trends ;;
    _ <-- match trends with
          | [] => sm_ret tt
          | _ => say (show_trends trends)
          end ;;
    sm_ret true
  else if String.eqb choice "4" then
    start <-- input "Start date (YYYY-MM-DD): " ;;
    stop_ <-- input "End date (YYYY-MM-DD): " ;;
    filtered <-- call (filter_by_date start stop_) ;;
    _ <-- match filtered with
          | [] => say "No activities found in that range."
          | _ => say (show_frame filtered)
          end ;;
    sm_ret true
  else if String.eqb choice "5" then
    activity <-- input "Activity type to filter by: " ;;
    filtered <-- call (filter_by_type activity) ;;
    _ <-- match filtered with
          | [] => say ("No entries for activity type '" ++ activity ++ "'.")
          | _ => say (show_frame filtered)
          end ;;
    sm_ret true
  else if String.eqb choice "6" then
    _ <-- say (newline ++ "1. Activity Distribution") ;;
    _ <-- say "2. Calories Over Time" ;;
    _ <-- say "3. Duration vs Calories" ;;
    viz <-- input "Choose visualization: " ;;
    _ <-- (if String.eqb viz "1" then call plot_activity_distribution
           else if String.eqb viz "2" then call plot_calories_over_time
           else if String.eqb viz "3" then call plot_duration_vs_calories
           else say "Invalid option.") ;;
    sm_ret true
  else if String.eqb choice "7" then
    _ <-- say "Goodbye!" ;;
    sm_ret false
  else
    _ <-- say "Invalid choice. Try again." ;;
    sm_ret true.

(** The loop, for at most [turns] turns. *)
Fixpoint menu_loop (turns : nat) : SM unit :=
  match turns with
  | O => fun s => (Stopped Unfinished, s)
  | S turns' =>
      go_on <-- menu_turn ;;
      if go_on then menu_loop turns' else sm_ret tt
  end.

(** [main_menu]: [tracker = FitnessTracker()], then the loop. *)
Definition main_menu (turns : nat) : SM unit :=
  _ <-- call (__init__ to_datetime to_numeric) ;;
  menu_loop turns.

End Menu.

End Shell.

(* ================================================================== *)
(** * The vocabulary of the statements *)

Import Py Datetime Pandas Tracker.

(** ** Dates and their texts *)

Definition dt_le (a b : datetime) : Prop :=
  year a < year b
  \/ (year a = year b
      /\ (month a < month b \/ (month a = month b /\ day a <= day b))).

(** The ways [strptime] lets a month and a day be written: two digits, or
    below ten the digit alone, or for a day a blank and the digit. *)
Definition month_texts (m : Z) : list text :=
  two_digits m :: (if m <? 10 then [[digit_char m]] else []).

Definition day_texts (d : Z) : list text :=
  two_digits d :: (if d <? 10 then [[digit_char d]; [" "%char; digit_char d]] else []).

(** The texts that denote the date [t]. *)
Definition spellings (t : datetime) : list string :=
  flat_map
    (fun m => map (fun d => string_of_list_ascii
                              (year_text (year t) ++ "-"%char :: m ++ "-"%char :: d))
                  (day_texts (day t)))
    (month_texts (month t)).

(** "Exactly in YYYY-MM-DD form", as the specification words the strict
    parse: the zero-padded text of a date that exists. *)
Definition exact_form (s : string) : Prop :=
  exists t, valid t /\ s = isoformat t.

(** Every character is one of the 256. *)
Definition all_ascii : list ascii := map ascii_of_nat (seq 0 256).

(** ** Frames *)

(** The filter as the specification words it: a row matches when its
    activity type, trimmed, equals the query without regard to case. *)
Definition by_activity_type_spec (records : DataFrame) (type_name : string) : DataFrame :=
  filter (fun r => String.eqb (lower (strip (activity_type r))) (lower type_name))
         records.

Definition trimmed (r : row) : Prop := strip (activity_type r) = activity_type r.

(** The rows of a frame dated [d]. *)
Definition on_day (d : datetime) (df : DataFrame) : DataFrame :=
  filter (fun r => Datetime.eqb (date r) d) df.

Definition sample_records : DataFrame :=
  [ mkrow (mkdate 2024 1 1) "Run" 30 300;
    mkrow (mkdate 2024 1 1) "Swim" 20 150;
    mkrow (mkdate 2024 1 2) "Run" 40 400 ].

(** ** Lines of a table *)

Section Lines.
Variable to_datetime : list (option string) -> string -> option datetime.
Variable to_numeric : list (option string) -> string -> option Z.

(** The four fields of one line of a table, as [_load_data] comes to see
    them: the cell unless it reads as missing, converted where the column
    is converted. *)
Definition field_date (lines : list csv_row) (l : csv_row) : option datetime :=
  coerce (to_datetime (map (fun x => read_cell (c_date x)) lines)) (read_cell (c_date l)).

Definition field_type (l : csv_row) : option string := read_cell (c_type l).

Definition field_duration (lines : list csv_row) (l : csv_row) : option Z :=
  coerce (to_numeric (map (fun x => read_cell (c_duration x)) lines))
         (read_cell (c_duration l)).

Definition field_calories (lines : list csv_row) (l : csv_row) : option Z :=
  coerce (to_numeric (map (fun x => read_cell (c_calories x)) lines))
         (read_cell (c_calories l)).

(** The record a line stands for, when all four fields are there. *)
Definition parse_line (lines : list csv_row) (l : csv_row) : option row :=
  match field_date lines l, field_type l, field_duration lines l, field_calories lines l with
  | Some d, Some a, Some n, Some c => Some (mkrow d a n c)
  | _, _, _, _ => None
  end.

Definition kept_rows (lines : list csv_row) : DataFrame :=
  flat_map (fun l => match parse_line lines l with Some r => [r] | None => [] end) lines.

End Lines.

(** Two conversions to run examples with.  They read an ISO date and a
    decimal integer as pandas does, and give NaT/NaN on the other texts
    the examples use. *)
Definition sample_to_datetime (col : list (option string)) (s : string) : option datetime :=
  strptime s.

Definition sample_to_numeric (col : list (option string)) (s : string) : option Z :=
  int_of_text (list_ascii_of_string s).

Definition sample_lines : list csv_row :=
  [ mkcsv "2024-01-01" "Run" "30" "300";
    mkcsv "2024-01-01" "Swim" "20" "150";
    mkcsv "2024-01-02" "NA" "45" "400";
    mkcsv "2024-01-03" "Yoga" "60" "180";
    mkcsv "2024-01-04" "Run" "25" "260" ].

(** ** The console prompts *)

(** A typed line that a prompt takes: the cast returns a value and the
    condition holds of it. *)
Definition taken {A} (cast_func : string -> option A) (condition : A -> option bool)
  (val : string) (v : A) : Prop :=
  cast_func val = Some v /\ condition v = Some true.

Definition refused {A} (cast_func : string -> option A) (condition : A -> option bool)
  (val : string) : Prop :=
  forall v, ~ taken cast_func condition val v.

(** What the console shows for the lines a prompt refuses. *)
Definition retries (prompt error : string) (refusals : list string) : list string :=
  flat_map (fun _ => [prompt; error]) refusals.

(** The field constraints of a record. *)
Definition well_formed (r : row) : Prop :=
  valid (date r) /\ trimmed r /\ activity_type r <> ""
  /\ 0 < duration r /\ 0 <= calories_burned r.

(** ** Totals and order *)

(** The sum of a list of numbers, as a number. *)
Definition plain_sum (l : list Z) : Z := fold_right Z.add 0 l.

Definition total (f : row -> Z) (df : DataFrame) : Z := plain_sum (map f df).

(** The absolute values of a column add up to less than 2^53.  No sum
    over rows of such a frame leaves the range in which an int64 column
    and a float64 column add exactly. *)
Definition moderate (f : row -> Z) (df : DataFrame) : Prop :=
  plain_sum (map (fun r => Z.abs (f r)) df) < 2 ^ 53.

(** A row whose two numbers are below 2^53 in absolute value. *)
Definition small (r : row) : Prop :=
  Z.abs (duration r) < 2 ^ 53 /\ Z.abs (calories_burned r) < 2 ^ 53.

Definition dt_lt (a b : datetime) : Prop := dt_le a b /\ a <> b.

Definition text_lt (a b : string) : Prop := String.leb a b = true /\ a <> b.

(** The rows of [daily_summary] for a frame: one per day, with its sums. *)
Definition day_rows (df : DataFrame) : list day_total :=
  map (fun k => mkday k (sum (map duration (on_day k df)))
                        (sum (map calories_burned (on_day k df))))
      (group_keys Datetime.eq_dec Datetime.leb date df).

(** ** Text and the written file *)

Definition is_ascii (s : string) : bool :=
  forallb (fun c => code c <? 128) (list_ascii_of_string s).

(** A text of ASCII characters. *)
Definition ascii_text (s : string) : Prop := is_ascii s = true.

(** A number handed over as an [int], or as a text of ASCII characters. *)
Definition ascii_value (v : value) : Prop :=
  match v with
  | VInt _ => True
  | VStr s => ascii_text s
  end.

(** A character that can occur in a number as [read_csv] reads one: a
    digit, a sign, the point, the mark of the exponent ([e], [E]) or of
    the imaginary part ([j], [J]), or white space. *)
Definition number_char (c : ascii) : bool :=
  is_digit c || (code c =? 43) || (code c =? 45) || (code c =? 46)
  || (code c =? 101) || (code c =? 69) || (code c =? 106) || (code c =? 74)
  || is_space c.

(** The words [read_csv] reads as a number or as a boolean, in small
    letters. *)
Definition special_values : list string :=
  [ "inf"; "+inf"; "-inf"; "infinity"; "+infinity"; "-infinity";
    "nan"; "+nan"; "-nan"; "true"; "false" ].

(** A text that [read_csv] keeps as text whatever else its column holds:
    it has a character that no number has, it is none of the special
    words in any letter case, and it is no missing-value marker.  A frame
    with such an activity type in every row holds its activity types as
    text ([str] values), whether a row was loaded or added. *)
Definition plain_text (s : string) : bool :=
  negb (forallb number_char (list_ascii_of_string s))
  && negb (existsb (String.eqb (lower (strip s))) special_values)
  && negb (is_na s).

(** A row whose activity type is a plain text of ASCII characters. *)
Definition text_typed (r : row) : Prop :=
  ascii_text (activity_type r) /\ plain_text (activity_type r) = true.

(** The cell [to_csv] writes for a date and for a number.  The text
    depends on the type of the column: midnights are written as dates by
    a datetime64 column and with their time by an object column, as the
    date column of a tracker started without a file is; an integer is
    written plainly by an int64 column and with a fraction by a float64
    column, which is what a numeric column is when a cell of the loaded
    file did not convert. *)
Definition date_cell (d : datetime) (s : string) : Prop :=
  s = isoformat d \/ s = (isoformat d ++ " 00:00:00")%string.

Definition number_cell (n : Z) (s : string) : Prop :=
  s = str_of_int n \/ s = (str_of_int n ++ ".0")%string.

(** The date and the numbers of a row, as a line of the file has them. *)
Definition cells_of (r : row) (l : csv_row) : Prop :=
  date_cell (date r) (c_date l)
  /\ number_cell (duration r) (c_duration l)
  /\ number_cell (calories_burned r) (c_calories l).

(** The file holds the frame: one line for each row, in order, with the
    row's date and numbers. *)
Definition holds (file : option csv_file) (df : DataFrame) : Prop :=
  exists lines, file = Some (Table lines) /\ Forall2 cells_of df lines.

(** ** Sessions *)

(** What a stretch of a session does to the records: it appends [added],
    all of them meeting the field constraints, and touches the file only
    by saving the whole frame after an append. *)
Definition appends (added : DataFrame) (s s' : Shell.session) : Prop :=
  self_df (Shell.tracker s') = self_df (Shell.tracker s) ++ added
  /\ Forall well_formed added
  /\ writable (Shell.tracker s') = writable (Shell.tracker s)
  /\ (added = [] -> disk (Shell.tracker s') = disk (Shell.tracker s))
  /\ (added <> [] -> writable (Shell.tracker s) = true ->
      disk (Shell.tracker s') = Some (to_csv (self_df (Shell.tracker s')))).

(** A call that only appends, that uses up at least [n] typed lines when
    it returns, and that does not end for want of turns. *)
Definition grows {A} (n : nat) (m : Shell.SM A) : Prop :=
  forall s,
    exists added,
      appends added s (snd (m s))
      /\ (List.length (Shell.stdin (snd (m s))) <= List.length (Shell.stdin s))%nat
      /\ (forall a, fst (m s) = Shell.Done a ->
            (List.length (Shell.stdin (snd (m s))) + n
             <= List.length (Shell.stdin s))%nat)
      /\ fst (m s) <> Shell.Stopped Shell.Unfinished.

(** A method of the tracker that leaves frame and file alone. *)
Definition reads_only {A} (m : M A) : Prop :=
  forall st,
    self_df (snd (m st)) = self_df st
    /\ disk (snd (m st)) = disk st
    /\ writable (snd (m st)) = writable st.

(** A call that, when it returns a flag, returns [true]. *)
Definition goes_on (m : Shell.SM bool) : Prop :=
  forall s b, fst (m s) = Shell.Done b -> b = true.

(** A call that returns [false] only after printing the goodbye. *)
Definition says_goodbye (m : Shell.SM bool) : Prop :=
  forall s s',
    m s = (Shell.Done false, s') ->
    exists shown, console (Shell.tracker s') = shown ++ ["Goodbye!"].


(* ================================================================== *)
(** * Properties *)

(** ** Order and equality on datetimes *)

Lemma datetime_eqb_eq (a b : datetime) : Datetime.eqb a b = true <-> a = b.
Proof.
  destruct a as [y m d], b as [y' m' d']; unfold Datetime.eqb; simpl.
  rewrite !andb_true_iff, !Z.eqb_eq. split.
  - intros [[-> ->] ->]; reflexivity.
  - intros H; injection H; auto.
Qed.

Lemma leb_le (a b : datetime) : Datetime.leb a b = true <-> dt_le a b.
Proof.
  unfold Datetime.leb, dt_le.
  rewrite !orb_true_iff, !andb_true_iff, !orb_true_iff, !andb_true_iff.
  rewrite !Z.ltb_lt, !Z.eqb_eq, Z.leb_le. tauto.
Qed.

Lemma dt_le_antisym (a b : datetime) : dt_le a b -> dt_le b a -> a = b.
Proof.
  destruct a as [y m d], b as [y' m' d']; unfold dt_le; simpl.
  intros H1 H2.
  assert (y = y' /\ m = m' /\ d = d') as (-> & -> & ->) by lia.
  reflexivity.
Qed.

Lemma dt_le_refl (a : datetime) : dt_le a a.
Proof. unfold dt_le. right. split; [reflexivity|]. right. split; [reflexivity | lia]. Qed.

(** ** Running a method *)

Lemma strptime_m_some (s : string) (d : datetime) (st : state) :
  strptime s = Some d -> strptime_m s st = (Returned d, st).
Proof. intros H. unfold strptime_m. rewrite H. reflexivity. Qed.

Lemma strptime_m_none (s : string) (st : state) :
  strptime s = None -> strptime_m s st = (Raised ValueError, st).
Proof. intros H. unfold strptime_m. rewrite H. reflexivity. Qed.

Lemma int_m_some (v : value) (n : Z) (st : state) :
  Py.int v = Some n -> int_m v st = (Returned n, st).
Proof. intros H. unfold int_m. rewrite H. reflexivity. Qed.

Lemma int_m_none (v : value) (st : state) :
  Py.int v = None -> int_m v st = (Raised ValueError, st).
Proof. intros H. unfold int_m. rewrite H. reflexivity. Qed.

(** [_save] never raises: it rewrites the file when the path can be
    written and reports otherwise. *)
Lemma _save_run (st : state) :
  _save st =
  (Returned tt,
   if writable st
   then mkstate (self_df st) (Some (to_csv (self_df st))) (writable st) (console st)
   else mkstate (self_df st) (disk st) (writable st)
                (console st ++ ["Failed to save data"])).
Proof.
  destruct st as [df dk [|] out]; reflexivity.
Qed.

(** What [add_activity] does once its three conversions succeed. *)
Lemma add_activity_run (st : state) (date_str a : string) (duration calories : value)
  (d : datetime) (n c : Z) :
  strptime date_str = Some d -> Py.int duration = Some n -> Py.int calories = Some c ->
  add_activity date_str a duration calories st =
  print "Activity added."
    (snd (_save (mkstate (self_df st ++ [mkrow d (strip a) n c])
                         (disk st) (writable st) (console st)))).
Proof.
  intros Hd Hn Hc.
  unfold add_activity, bind at 1, try_except_ValueError, bind at 1.
  rewrite (strptime_m_some _ _ _ Hd). cbn [ret].
  unfold bind at 1. rewrite (int_m_some _ _ _ Hn).
  unfold bind at 1. rewrite (int_m_some _ _ _ Hc).
  unfold bind at 1, get_df. unfold bind at 1, set_df. cbn [self_df disk writable console].
  unfold bind at 1. rewrite _save_run. reflexivity.
Qed.

(* ================================================================== *)
(** ** [add_activity] *)

Lemma cells_of_csv_of_row (r : row) : cells_of r (csv_of_row r).
Proof. repeat split; left; reflexivity. Qed.

(** What [to_csv] writes holds the frame. *)
Lemma to_csv_holds (df : DataFrame) : holds (Some (to_csv df)) df.
Proof.
  exists (map csv_of_row df). split; [reflexivity|].
  induction df as [|r df IH]; simpl; constructor;
    [apply cells_of_csv_of_row | exact IH].
Qed.




(** What [add_activity] does when the date is rejected. *)
Lemma add_activity_rejected (st : state) (date_str a : string) (duration calories : value) :
  strptime date_str = None ->
  add_activity date_str a duration calories st
  = (Returned tt,
     mkstate (self_df st) (disk st) (writable st)
             (console st ++ ["Invalid date. Use YYYY-MM-DD."])).
Proof.
  intros Hd.
  unfold add_activity, bind at 1, try_except_ValueError, bind at 1.
  rewrite (strptime_m_none _ _ Hd). reflexivity.
Qed.

(** C10.  When the date text does not parse, [add_activity] returns without
    touching the frame or the file; it only prints the diagnostic. *)
Theorem add_activity_invalid_date_no_change
  (st : state) (date_str a : string) (duration calories : value) :
  strptime date_str = None ->
  exists st',
    add_activity date_str a duration calories st = (Returned tt, st')
    /\ self_df st' = self_df st
    /\ disk st' = disk st
    /\ writable st' = writable st
    /\ console st' = console st ++ ["Invalid date. Use YYYY-MM-DD."].
Proof.
  intros Hd. rewrite (add_activity_rejected st date_str a duration calories Hd).
  eexists. split; [reflexivity|]. repeat split.
Qed.

Lemma add_activity_invalid_date_no_change_witness :
  exists st',
    add_activity "2024-13-01" "Run" (VInt 30) (VInt 300)
      (mkstate [mkrow (mkdate 2023 12 31) "Swim" 20 150] None true []) = (Returned tt, st')
    /\ self_df st' = [mkrow (mkdate 2023 12 31) "Swim" 20 150]
    /\ disk st' = None.
Proof.
  destruct (add_activity_invalid_date_no_change
              (mkstate [mkrow (mkdate 2023 12 31) "Swim" 20 150] None true [])
              "2024-13-01" "Run" (VInt 30) (VInt 300) eq_refl)
    as (st' & Hrun & Hdf & Hdisk & _).
  exists st'. repeat split; assumption.
Defined.

(** C9.  [int(duration)] sits outside every [try]: with a duration text
    that is not a number, [add_activity] raises [ValueError] to its caller
    and prints nothing, although the date was accepted. *)
Theorem add_activity_raises_on_non_numeric_duration (st : state) :
  strptime "2024-01-01" = Some (mkdate 2024 1 1)
  /\ add_activity "2024-01-01" "Run" (VStr "abc") (VStr "100") st
     = (Raised ValueError, st).
Proof.
  split; [reflexivity|].
  unfold add_activity, bind at 1, try_except_ValueError, bind at 1.
  rewrite (strptime_m_some "2024-01-01" (mkdate 2024 1 1) st eq_refl). cbn [ret].
  unfold bind at 1. rewrite (int_m_none (VStr "abc") st eq_refl). reflexivity.
Qed.

(* ================================================================== *)
(** ** [filter_by_date] *)

Lemma within_iff (s e : datetime) (r : row) :
  within s e r = true <-> dt_le s (date r) /\ dt_le (date r) e.
Proof. unfold within. rewrite andb_true_iff, !leb_le. reflexivity. Qed.

Lemma within_same_day (d : datetime) (r : row) :
  within d d r = true <-> date r = d.
Proof.
  rewrite within_iff. split.
  - intros [H1 H2]. apply dt_le_antisym; assumption.
  - intros <-. split; apply dt_le_refl.
Qed.

(** What [filter_by_date] returns. *)
Lemma filter_by_date_run (st : state) (start_date end_date : string) :
  filter_by_date start_date end_date st
  = match strptime start_date, strptime end_date with
    | Some s, Some e => (Returned (filter (within s e) (self_df st)), st)
    | _, _ => (Returned [],
               mkstate (self_df st) (disk st) (writable st)
                       (console st ++ ["Invalid date format."]))
    end.
Proof.
  destruct (strptime start_date) as [s|] eqn:Hs;
    [destruct (strptime end_date) as [e|] eqn:He|];
    unfold filter_by_date, bind at 1, try_except_ValueError, bind at 1.
  - rewrite (strptime_m_some _ _ _ Hs). unfold bind at 1.
    rewrite (strptime_m_some _ _ _ He). reflexivity.
  - rewrite (strptime_m_some _ _ _ Hs). unfold bind at 1.
    rewrite (strptime_m_none _ _ He). reflexivity.
  - rewrite (strptime_m_none _ _ Hs). reflexivity.
Qed.

(** C5.  With two bounds that parse, [filter_by_date] returns the rows of
    the frame, in order, whose date lies between the bounds, both included,
    and changes nothing; with equal bounds these are the rows of that very
    day.  If either bound does not parse it returns the empty frame and
    prints a diagnostic instead of raising. *)
Theorem filter_by_date_inclusive (st : state) (start_date end_date : string) :
  match strptime start_date, strptime end_date with
  | Some s, Some e =>
      filter_by_date start_date end_date st
      = (Returned (filter (within s e) (self_df st)), st)
      /\ (forall r, In r (filter (within s e) (self_df st))
                    <-> In r (self_df st) /\ dt_le s (date r) /\ dt_le (date r) e)
      /\ (s = e -> forall r, In r (filter (within s e) (self_df st))
                             <-> In r (self_df st) /\ date r = s)
  | _, _ =>
      filter_by_date start_date end_date st
      = (Returned [],
         mkstate (self_df st) (disk st) (writable st)
                 (console st ++ ["Invalid date format."]))
  end.
Proof.
  rewrite filter_by_date_run.
  destruct (strptime start_date) as [s|]; [destruct (strptime end_date) as [e|]|];
    try reflexivity.
  split; [reflexivity|]. split.
  - intros r. rewrite filter_In, within_iff. reflexivity.
  - intros <- r. rewrite filter_In, within_same_day. reflexivity.
Qed.

(* ================================================================== *)
(** ** [filter_by_type] *)

Lemma lstrip_idem (s : text) : lstrip (lstrip s) = lstrip s.
Proof.
  induction s as [|c r IH]; simpl; [reflexivity|].
  destruct (is_space c) eqn:E; [exact IH|]. simpl. rewrite E. reflexivity.
Qed.

Lemma lstrip_snoc (s : text) (c : ascii) :
  is_space c = false -> lstrip (s ++ [c]) = lstrip s ++ [c].
Proof.
  intros Hc. induction s as [|x r IH]; simpl.
  - rewrite Hc. reflexivity.
  - destruct (is_space x); [exact IH | reflexivity].
Qed.

Lemma lstrip_length (s : text) : (List.length (lstrip s) <= List.length s)%nat.
Proof.
  induction s as [|x t IH]; simpl; [lia|]. destruct (is_space x); simpl; lia.
Qed.

Lemma rstrip_cons (c : ascii) (r : text) :
  is_space c = false -> rstrip (c :: r) = c :: rev (lstrip (rev r)).
Proof.
  intros E. unfold rstrip. change (rev (c :: r)) with (rev r ++ [c]).
  rewrite (lstrip_snoc _ _ E), rev_app_distr. reflexivity.
Qed.

Lemma lstrip_rstrip (s : text) : lstrip s = s -> lstrip (rstrip s) = rstrip s.
Proof.
  destruct s as [|c r]; [reflexivity|].
  destruct (is_space c) eqn:E.
  - intros H. exfalso. simpl in H. rewrite E in H.
    pose proof (lstrip_length r) as L. rewrite H in L. simpl in L. lia.
  - intros _. rewrite (rstrip_cons _ _ E). simpl. rewrite E. reflexivity.
Qed.

Lemma strip_text_idem (s : text) : strip_text (strip_text s) = strip_text s.
Proof.
  unfold strip_text.
  rewrite (lstrip_rstrip (lstrip s) (lstrip_idem s)).
  unfold rstrip. rewrite rev_involutive, lstrip_idem. reflexivity.
Qed.

(** [s.strip().strip() == s.strip()]: a row built by [add_activity] holds
    a trimmed activity type. *)
Lemma strip_idem (s : string) : strip (strip s) = strip s.
Proof.
  unfold strip. rewrite list_ascii_of_string_of_list_ascii, strip_text_idem.
  reflexivity.
Qed.

Lemma same_type_iff (query : string) (r : row) :
  same_type query r = true <-> lower (activity_type r) = lower query.
Proof. unfold same_type. apply String.eqb_eq. Qed.

(** C4, as the code has it.  Take a frame with at least one row whose
    activity types are all plain texts of ASCII characters, so that the
    frame holds them as text, and an ASCII query.  Then [filter_by_type]
    returns, in their original order and without changing anything,
    exactly the rows whose activity type as stored equals the query once
    both are lower-cased; the stored text is not trimmed again.  On a
    frame whose activity types are already trimmed (which is how
    [add_activity] stores them) this is the filter of the specification.
    A query ["run"] matches a row typed ["Run"]. *)
Theorem filter_by_type_case_insensitive (st : state) (query : string) :
  ascii_text query ->
  self_df st <> [] ->
  Forall text_typed (self_df st) ->
  filter_by_type query st = (Returned (filter (same_type query) (self_df st)), st)
  /\ (forall r, In r (filter (same_type query) (self_df st))
                <-> In r (self_df st) /\ lower (activity_type r) = lower query)
  /\ (Forall trimmed (self_df st) ->
      filter (same_type query) (self_df st) = by_activity_type_spec (self_df st) query)
  /\ (forall d a n c, trimmed (mkrow d (strip a) n c))
  /\ (forall d n c,
        text_typed (mkrow d "Run" n c) /\ same_type "run" (mkrow d "Run" n c) = true).
Proof.
  intros _ _ _.
  split; [reflexivity|]. split; [|split; [|split]].
  - intros r. rewrite filter_In, same_type_iff. reflexivity.
  - intros Ht. unfold by_activity_type_spec. apply filter_ext_in.
    intros r Hr. rewrite Forall_forall in Ht. unfold same_type.
    rewrite (Ht r Hr). reflexivity.
  - intros d a n c. unfold trimmed. simpl. apply strip_idem.
  - intros d n c. repeat split.
Qed.

Lemma filter_by_type_case_insensitive_witness :
  filter_by_type "run"
    (mkstate [ mkrow (mkdate 2024 1 1) "Run" 30 300;
               mkrow (mkdate 2024 1 1) "Swim" 20 150;
               mkrow (mkdate 2024 1 2) "RUN" 40 400;
               mkrow (mkdate 2024 1 3) " run" 25 260;
               mkrow (mkdate 2024 1 4) "run" 25 260 ] None true [])
  = (Returned [ mkrow (mkdate 2024 1 1) "Run" 30 300;
                mkrow (mkdate 2024 1 2) "RUN" 40 400;
                mkrow (mkdate 2024 1 4) "run" 25 260 ],
     mkstate [ mkrow (mkdate 2024 1 1) "Run" 30 300;
               mkrow (mkdate 2024 1 1) "Swim" 20 150;
               mkrow (mkdate 2024 1 2) "RUN" 40 400;
               mkrow (mkdate 2024 1 3) " run" 25 260;
               mkrow (mkdate 2024 1 4) "run" 25 260 ] None true []).
Proof.
  refine (proj1 (filter_by_type_case_insensitive
                   (mkstate [ mkrow (mkdate 2024 1 1) "Run" 30 300;
                              mkrow (mkdate 2024 1 1) "Swim" 20 150;
                              mkrow (mkdate 2024 1 2) "RUN" 40 400;
                              mkrow (mkdate 2024 1 3) " run" 25 260;
                              mkrow (mkdate 2024 1 4) "run" 25 260 ] None true [])
                   "run" eq_refl _ _)).
  - discriminate.
  - repeat constructor.
Defined.

(** C4 as stated fails on a row whose stored type carries a blank: trimmed,
    the type [" Run"] equals the query ["run"] without regard to case, so
    the specification's filter keeps the row; the tracker returns nothing. *)
Lemma filter_by_type_untrimmed_row_differs :
  lower (strip " Run") = lower "run"
  /\ by_activity_type_spec [mkrow (mkdate 2024 1 1) " Run" 30 300] "run"
     = [mkrow (mkdate 2024 1 1) " Run" 30 300]
  /\ filter_by_type "run" (mkstate [mkrow (mkdate 2024 1 1) " Run" 30 300] None true [])
     = (Returned [], mkstate [mkrow (mkdate 2024 1 1) " Run" 30 300] None true []).
Proof. repeat split. Qed.

(* ================================================================== *)
(** ** [groupby]: one output row per distinct key *)

Section GroupByFacts.
Context {K : Type}.
Variable K_eq_dec : forall a b : K, {a = b} + {a <> b}.
Variable K_leb : K -> K -> bool.
Variable key : row -> K.

Lemma insert_key_perm (k : K) (l : list K) :
  Permutation (insert_key K_leb k l) (k :: l).
Proof.
  induction l as [|x r IH]; simpl; [apply Permutation_refl|].
  destruct (K_leb k x); [apply Permutation_refl|].
  eapply Permutation_trans; [apply perm_skip, IH | apply perm_swap].
Qed.

Lemma sort_keys_perm (l : list K) : Permutation (sort_keys K_leb l) l.
Proof.
  induction l as [|x r IH]; simpl; [apply Permutation_refl|].
  eapply Permutation_trans; [apply insert_key_perm | apply perm_skip, IH].
Qed.

Lemma group_keys_NoDup (df : DataFrame) : NoDup (group_keys K_eq_dec K_leb key df).
Proof.
  unfold group_keys.
  eapply Permutation_NoDup; [apply Permutation_sym, sort_keys_perm|].
  apply NoDup_nodup.
Qed.

Lemma group_keys_In (df : DataFrame) (k : K) :
  In k (group_keys K_eq_dec K_leb key df) <-> exists r, In r df /\ key r = k.
Proof.
  unfold group_keys. split.
  - intros H. apply (Permutation_in _ (sort_keys_perm _)) in H.
    apply nodup_In, in_map_iff in H. destruct H as (r & Hk & Hr). eauto.
  - intros (r & Hr & Hk).
    apply (Permutation_in _ (Permutation_sym (sort_keys_perm _))).
    apply nodup_In, in_map_iff. eauto.
Qed.

Lemma get_group_nonempty (df : DataFrame) (k : K) :
  In k (group_keys K_eq_dec K_leb key df) -> get_group K_eq_dec key k df <> [].
Proof.
  intros H. apply group_keys_In in H. destruct H as (r & Hr & Hk).
  intros E. assert (Hin : In r (get_group K_eq_dec key k df)).
  { apply filter_In. split; [exact Hr|]. unfold has_key.
    destruct (K_eq_dec (key r) k); [reflexivity | contradiction]. }
  rewrite E in Hin. exact Hin.
Qed.

Lemma groupby_agg_keys {R} (agg : K -> DataFrame -> R) (proj : R -> K) (df : DataFrame) :
  (forall k g, proj (agg k g) = k) ->
  map proj (groupby_agg K_eq_dec K_leb key agg df) = group_keys K_eq_dec K_leb key df.
Proof.
  intros H. unfold groupby_agg. rewrite map_map.
  rewrite (map_ext _ (fun k => k)); [apply map_id | intros k; apply H].
Qed.

Lemma groupby_agg_In {R} (agg : K -> DataFrame -> R) (df : DataFrame) (x : R) :
  In x (groupby_agg K_eq_dec K_leb key agg df) ->
  exists k, In k (group_keys K_eq_dec K_leb key df)
            /\ x = agg k (get_group K_eq_dec key k df).
Proof.
  unfold groupby_agg. intros H. apply in_map_iff in H.
  destruct H as (k & Hx & Hk). exists k. split; [exact Hk | symmetry; exact Hx].
Qed.

End GroupByFacts.

Lemma get_group_date (d : datetime) (df : DataFrame) :
  get_group Datetime.eq_dec date d df = on_day d df.
Proof.
  apply filter_ext. intros r. unfold has_key.
  destruct (Datetime.eq_dec (date r) d) as [E|N].
  - symmetry. apply datetime_eqb_eq. exact E.
  - destruct (Datetime.eqb (date r) d) eqn:B; [|reflexivity].
    apply datetime_eqb_eq in B. contradiction.
Qed.

(* ================================================================== *)
(** ** [daily_summary] *)

Lemma wrap64_exact (z : Z) : - 2 ^ 63 <= z < 2 ^ 63 -> wrap64 z = z.
Proof. intros H. unfold wrap64. rewrite Z.mod_small; lia. Qed.

Lemma wrap64_add_r (x y : Z) : wrap64 (x + wrap64 y) = wrap64 (x + y).
Proof.
  unfold wrap64. f_equal.
  replace (x + ((y + 2 ^ 63) mod 2 ^ 64 - 2 ^ 63) + 2 ^ 63)
    with (x + (y + 2 ^ 63) mod 2 ^ 64) by lia.
  rewrite Z.add_mod_idemp_r by lia. f_equal. lia.
Qed.

(** The sum of an int64 column is the sum of its numbers, wrapped. *)
Lemma sum_wraps (l : list Z) : sum l = wrap64 (plain_sum l).
Proof.
  induction l as [|x r IH]; [reflexivity|].
  change (sum (x :: r)) with (wrap64 (x + sum r)). rewrite IH.
  apply wrap64_add_r.
Qed.

Lemma plain_sum_abs (l : list Z) : Z.abs (plain_sum l) <= plain_sum (map Z.abs l).
Proof. induction l as [|x r IH]; simpl; lia. Qed.

Lemma plain_sum_app (l1 l2 : list Z) : plain_sum (l1 ++ l2) = plain_sum l1 + plain_sum l2.
Proof. induction l1 as [|x r IH]; simpl; [reflexivity | rewrite IH; lia]. Qed.

Lemma plain_sum_abs_filter (f : row -> Z) (p : row -> bool) (df : DataFrame) :
  0 <= plain_sum (map (fun r => Z.abs (f r)) (filter p df))
    <= plain_sum (map (fun r => Z.abs (f r)) df).
Proof.
  induction df as [|r df IH]; simpl; [lia|].
  destruct (p r); simpl; lia.
Qed.

Lemma moderate_filter (f : row -> Z) (p : row -> bool) (df : DataFrame) :
  moderate f df -> moderate f (filter p df).
Proof. unfold moderate. pose proof (plain_sum_abs_filter f p df). lia. Qed.

(** Within the bound the sum of a column does not wrap. *)
Lemma sum_moderate (f : row -> Z) (df : DataFrame) :
  moderate f df -> sum (map f df) = total f df.
Proof.
  unfold moderate, total. intros H. rewrite sum_wraps. apply wrap64_exact.
  pose proof (plain_sum_abs (map f df)) as A. rewrite map_map in A. lia.
Qed.



(* ================================================================== *)
(** ** [_load_data] *)

Lemma dropna_map {A} (f : A -> typed_row) (l : list A) :
  dropna (map f l)
  = flat_map (fun x => match complete (f x) with Some r => [r] | None => [] end) l.
Proof.
  induction l as [|x r IH]; simpl; [reflexivity|].
  rewrite IH. destruct (complete (f x)); reflexivity.
Qed.

Section LoadFacts.
Variable to_datetime : list (option string) -> string -> option datetime.
Variable to_numeric : list (option string) -> string -> option Z.

Lemma parse_line_none (lines : list csv_row) (l : csv_row) :
  parse_line to_datetime to_numeric lines l = None
  <-> field_date to_datetime lines l = None \/ field_type l = None
      \/ field_duration to_numeric lines l = None
      \/ field_calories to_numeric lines l = None.
Proof.
  unfold parse_line.
  destruct (field_date to_datetime lines l), (field_type l),
    (field_duration to_numeric lines l), (field_calories to_numeric lines l);
    split; intros H; try reflexivity; try discriminate;
    try (decompose [or] H; discriminate); tauto.
Qed.

Lemma load_table (lines : list csv_row) (df0 : DataFrame) (w : bool) (out0 : list string) :
  _load_data to_datetime to_numeric (mkstate df0 (Some (Table lines)) w out0)
  = (Returned (kept_rows to_datetime to_numeric lines),
     mkstate df0 (Some (Table lines)) w out0).
Proof.
  unfold _load_data, bind at 1, path_exists. cbn [disk negb].
  unfold try_except_Exception, bind at 1, read_csv. cbn [disk ret].
  unfold convert_columns. rewrite dropna_map, !map_map.
  unfold kept_rows. rewrite !flat_map_concat_map, map_map. reflexivity.
Qed.

End LoadFacts.

(** C6.  A line of the file is discarded although none of its four
    fields fails to parse when its activity type is a text that
    [read_csv] takes for a missing value.  The date of the line
    [2024-01-01,NA,30,300] parses, its two numbers are integers and its
    type is a trimmed text that is not empty; yet the file that holds this
    one line loads as the empty frame, whatever the column conversions
    do, while the same line typed [Run] loads as its record.  A file of
    five such lines, all four fields of each in order, one of them typed
    [NA], loads as four records. *)
Theorem load_drops_line_typed_NA :
  (strptime "2024-01-01" = Some (mkdate 2024 1 1)
   /\ Py.int (VStr "30") = Some 30 /\ Py.int (VStr "300") = Some 300
   /\ strip "NA" = "NA" /\ "NA" <> "")
  /\ (forall to_datetime to_numeric df0 w out0,
        _load_data to_datetime to_numeric
          (mkstate df0 (Some (Table [mkcsv "2024-01-01" "NA" "30" "300"])) w out0)
        = (Returned [],
           mkstate df0 (Some (Table [mkcsv "2024-01-01" "NA" "30" "300"])) w out0))
  /\ (forall df0 w out0,
        _load_data sample_to_datetime sample_to_numeric
          (mkstate df0 (Some (Table [mkcsv "2024-01-01" "Run" "30" "300"])) w out0)
        = (Returned [mkrow (mkdate 2024 1 1) "Run" 30 300],
           mkstate df0 (Some (Table [mkcsv "2024-01-01" "Run" "30" "300"])) w out0))
  /\ (forall df0 w out0,
        List.length sample_lines = 5%nat
        /\ _load_data sample_to_datetime sample_to_numeric
             (mkstate df0 (Some (Table sample_lines)) w out0)
           = (Returned [ mkrow (mkdate 2024 1 1) "Run" 30 300;
                         mkrow (mkdate 2024 1 1) "Swim" 20 150;
                         mkrow (mkdate 2024 1 3) "Yoga" 60 180;
                         mkrow (mkdate 2024 1 4) "Run" 25 260 ],
              mkstate df0 (Some (Table sample_lines)) w out0)).
Proof.
  split; [|split; [|split]].
  - repeat split. discriminate.
  - intros td tn df0 w out0. rewrite load_table. unfold kept_rows. cbn [flat_map].
    rewrite (proj2 (parse_line_none td tn _ _)); [reflexivity|].
    right. left. reflexivity.
  - intros df0 w out0. rewrite load_table. reflexivity.
  - intros df0 w out0. split; [reflexivity|]. rewrite load_table. reflexivity.
Qed.

(** C1.  A record that meets every field constraint is lost by a save
    followed by a load when its activity type is a text that [read_csv]
    takes for a missing value: [_save] writes the type ["NA"] as it is,
    [read_csv] reads the cell back as NaN whatever the column conversions
    do, and [dropna] discards the row. *)
Theorem save_then_load_loses_NA_typed_row :
  forall to_datetime to_numeric dk out0,
    Datetime.valid (mkdate 2024 1 1)
    /\ strip "NA" = "NA"
    /\ _save (mkstate [mkrow (mkdate 2024 1 1) "NA" 30 300] dk true out0)
       = (Returned tt,
          mkstate [mkrow (mkdate 2024 1 1) "NA" 30 300]
                  (Some (Table [mkcsv "2024-01-01" "NA" "30" "300"])) true out0)
    /\ _load_data to_datetime to_numeric
         (mkstate [mkrow (mkdate 2024 1 1) "NA" 30 300]
                  (Some (Table [mkcsv "2024-01-01" "NA" "30" "300"])) true out0)
       = (Returned [],
          mkstate [mkrow (mkdate 2024 1 1) "NA" 30 300]
                  (Some (Table [mkcsv "2024-01-01" "NA" "30" "300"])) true out0)
    /\ ~ Permutation ([] : DataFrame) [mkrow (mkdate 2024 1 1) "NA" 30 300].
Proof.
  intros td tn dk out0.
  split; [reflexivity|]. split; [reflexivity|]. split; [reflexivity|]. split.
  - rewrite load_table. unfold kept_rows. cbn [flat_map].
    rewrite (proj2 (parse_line_none td tn _ _)); [reflexivity|].
    right. left. reflexivity.
  - intros H. apply Permutation_nil in H. discriminate.
Qed.

(* ================================================================== *)
(** ** [strptime]: which texts parse *)

Section MatcherFacts.
Context {A B : Type}.

Lemma re_bind_In (p : matcher A) (k : A -> matcher B) (s : text) (b : B) (r : text) :
  In (b, r) (re_bind p k s) <-> exists a r', In (a, r') (p s) /\ In (b, r) (k a r').
Proof.
  unfold re_bind. rewrite in_flat_map. split.
  - intros ([a r'] & H1 & H2). exists a, r'. split; assumption.
  - intros (a & r' & H1 & H2). exists (a, r'). split; assumption.
Qed.

Lemma re_alt_In (p q : matcher A) (s : text) (x : A * text) :
  In x (re_alt p q s) <-> In x (p s) \/ In x (q s).
Proof. unfold re_alt. apply in_app_iff. Qed.

End MatcherFacts.

Lemma re_char_In (ok : ascii -> bool) (s x r : text) :
  In (x, r) (re_char ok s) <-> exists c, s = c :: r /\ x = [c] /\ ok c = true.
Proof.
  unfold re_char. destruct s as [|c t].
  - split; [intros [] | intros (c & H & _); discriminate].
  - destruct (ok c) eqn:E.
    + split.
      * intros [H|[]]. injection H as <- <-. exists c. auto.
      * intros (c' & H & -> & _). injection H as <- <-. left. reflexivity.
    + split; [intros [] | intros (c' & H & _ & H')].
      injection H as <- <-. congruence.
Qed.

Lemma re_seq_In (p q : matcher text) (s x r : text) :
  In (x, r) (re_seq p q s)
  <-> exists x1 x2 r1, In (x1, r1) (p s) /\ In (x2, r) (q r1) /\ x = x1 ++ x2.
Proof.
  unfold re_seq. rewrite re_bind_In. split.
  - intros (x1 & r1 & H1 & H2). apply re_bind_In in H2.
    destruct H2 as (x2 & r2 & H2 & H3). destruct H3 as [H3|[]].
    injection H3 as <- <-. exists x1, x2, r1. auto.
  - intros (x1 & x2 & r1 & H1 & H2 & ->). exists x1, r1. split; [exact H1|].
    apply re_bind_In. exists x2, r. split; [exact H2 | left; reflexivity].
Qed.

Lemma all_ascii_complete (c : ascii) : In c all_ascii.
Proof.
  unfold all_ascii. apply in_map_iff. exists (nat_of_ascii c).
  split; [apply ascii_nat_embedding|]. apply in_seq.
  pose proof (nat_ascii_bounded c). lia.
Qed.

Lemma in_range_cases (lo hi c : ascii) :
  in_range lo hi c = true -> In c (filter (in_range lo hi) all_ascii).
Proof. intros H. apply filter_In. split; [apply all_ascii_complete | exact H]. Qed.

Lemma lit_eq (c0 c : ascii) : Ascii.eqb c0 c = true -> c = c0.
Proof. intros H. apply Ascii.eqb_eq in H. auto. Qed.

(** Case analysis on the disjunctions in the context. *)
Ltac split_cases :=
  repeat match goal with
         | H : _ \/ _ |- _ => destruct H as [H|H]
         | H : False |- _ => destruct H
         end.

(** Inversion of a match of the pattern into its characters. *)
Ltac invert_match :=
  repeat match goal with
         | H : In _ (re_alt _ _ _) |- _ =>
             apply re_alt_In in H; destruct H as [H|H]
         | H : In _ (re_seq _ _ _) |- _ =>
             apply re_seq_In in H; destruct H as (? & ? & ? & ? & ? & ?)
         | H : In _ (lit _ _) |- _ =>
             apply re_char_In in H; destruct H as (? & ? & ? & H); apply lit_eq in H
         | H : In _ (cls _ _ _) |- _ =>
             apply re_char_In in H; destruct H as (? & ? & ? & H);
             apply in_range_cases in H; vm_compute in H
         | H : In _ (dig _) |- _ =>
             apply re_char_In in H; destruct H as (? & ? & ? & H)
         end.

Lemma group_m_In (m r s : text) :
  In (m, r) (group_m s) ->
  s = m ++ r
  /\ exists mv, 1 <= mv <= 12 /\ int_of_text m = Some mv /\ In m (month_texts mv).
Proof.
  unfold group_m. intros H. invert_match; split_cases; subst;
    (split; [reflexivity|]); eexists;
    (split; [|split; [vm_compute; reflexivity | vm_compute; auto]]); lia.
Qed.

Lemma group_d_In (d r s : text) :
  In (d, r) (group_d s) ->
  s = d ++ r
  /\ exists dv, 1 <= dv <= 31 /\ int_of_text d = Some dv /\ In d (day_texts dv).
Proof.
  unfold group_d. intros H. invert_match;
    try match goal with
        | H : is_digit _ = true |- _ =>
            change (is_digit ?c) with (in_range "0" "9" c) in H;
            apply in_range_cases in H; vm_compute in H
        end;
    split_cases; subst;
    (split; [reflexivity|]); eexists;
    (split; [|split; [vm_compute; reflexivity | vm_compute; auto]]); lia.
Qed.


Lemma digit_facts (c : ascii) :
  is_digit c = true ->
  is_c_space c = false /\ (code c =? 45) = false /\ (code c =? 43) = false
  /\ 0 <= digit_val c <= 9 /\ digit_char (digit_val c) = c.
Proof.
  intros H. change (is_digit c) with (in_range "0" "9" c) in H.
  apply in_range_cases in H. vm_compute in H. split_cases; subst;
    (repeat split; try reflexivity; vm_compute; discriminate).
Qed.

Lemma digit_char_eq (n : Z) (c : ascii) :
  is_digit c = true -> n mod 10 = digit_val c -> digit_char n = c.
Proof.
  intros Hc Hn. destruct (digit_facts c Hc) as (_ & _ & _ & Hr & Hv).
  rewrite <- Hv. unfold digit_char. rewrite Hn, Z.mod_small by lia. reflexivity.
Qed.

Lemma digit_char_is_digit (n : Z) :
  is_digit (digit_char n) = true /\ digit_val (digit_char n) = n mod 10.
Proof.
  unfold digit_char.
  assert (H : 0 <= n mod 10 < 10) by (apply Z.mod_pos_bound; lia).
  assert (C : n mod 10 = 0 \/ n mod 10 = 1 \/ n mod 10 = 2 \/ n mod 10 = 3
              \/ n mod 10 = 4 \/ n mod 10 = 5 \/ n mod 10 = 6 \/ n mod 10 = 7
              \/ n mod 10 = 8 \/ n mod 10 = 9) by lia.
  split_cases; rewrite C; split; reflexivity.
Qed.

Lemma int_of_four_digits (a b c e : ascii) :
  is_digit a = true -> is_digit b = true -> is_digit c = true -> is_digit e = true ->
  int_of_text [a; b; c; e]
  = Some (1000 * digit_val a + 100 * digit_val b + 10 * digit_val c + digit_val e).
Proof.
  intros Ha Hb Hc He.
  destruct (digit_facts a Ha) as (Sa & Ma & Pa & _).
  destruct (digit_facts e He) as (Se & _).
  unfold int_of_text, int_literal. cbn [skip_space]. rewrite Sa.
  cbn [rev app skip_space]. rewrite Se. cbn [rev app filter].
  rewrite Ma, Pa. cbn [int_digits]. rewrite Ha, Hb, Hc, He.
  change (max_str_digits <? List.length [a; b; c; e])%nat with false.
  cbn iota. f_equal. lia.
Qed.

Lemma year_text_value (y : Z) :
  0 <= y <= 9999 ->
  Forall (fun c => is_digit c = true) (year_text y)
  /\ int_of_text (year_text y) = Some y.
Proof.
  intros Hy. unfold year_text.
  pose proof (digit_char_is_digit (y / 1000)) as [D3 V3].
  pose proof (digit_char_is_digit (y / 100)) as [D2 V2].
  pose proof (digit_char_is_digit (y / 10)) as [D1 V1].
  pose proof (digit_char_is_digit y) as [D0 V0].
  split; [repeat constructor; assumption|].
  rewrite (int_of_four_digits _ _ _ _ D3 D2 D1 D0), V3, V2, V1, V0.
  f_equal. Z.div_mod_to_equations. lia.
Qed.

Lemma year_text_of_digits (a b c e : ascii) :
  is_digit a = true -> is_digit b = true -> is_digit c = true -> is_digit e = true ->
  exists y, 0 <= y <= 9999 /\ [a; b; c; e] = year_text y.
Proof.
  intros Ha Hb Hc He.
  destruct (digit_facts a Ha) as (_ & _ & _ & Ra & _).
  destruct (digit_facts b Hb) as (_ & _ & _ & Rb & _).
  destruct (digit_facts c Hc) as (_ & _ & _ & Rc & _).
  destruct (digit_facts e He) as (_ & _ & _ & Re & _).
  exists (1000 * digit_val a + 100 * digit_val b + 10 * digit_val c + digit_val e).
  split; [lia|]. unfold year_text.
  rewrite (digit_char_eq _ a Ha), (digit_char_eq _ b Hb),
    (digit_char_eq _ c Hc), (digit_char_eq _ e He);
    [reflexivity | Z.div_mod_to_equations; lia ..].
Qed.

Lemma group_Y_digits (a b c e : ascii) (r : text) :
  is_digit a = true -> is_digit b = true -> is_digit c = true -> is_digit e = true ->
  group_Y (a :: b :: c :: e :: r) = [([a; b; c; e], r)].
Proof.
  intros Ha Hb Hc He.
  unfold group_Y, re_seq, re_bind, dig, re_char, re_ret.
  rewrite Ha. cbn [flat_map fst snd app]. rewrite Hb. cbn [flat_map fst snd app].
  rewrite Hc. cbn [flat_map fst snd app]. rewrite He. reflexivity.
Qed.

Lemma group_Y_In (y r s : text) :
  In (y, r) (group_Y s) ->
  s = y ++ r /\ exists yv, 0 <= yv <= 9999 /\ y = year_text yv.
Proof.
  unfold group_Y. intros H. invert_match. subst.
  split; [reflexivity|]. apply year_text_of_digits; assumption.
Qed.

Lemma re_bind_single {A B} (p : matcher A) (k : A -> matcher B) (s r : text) (a : A) :
  p s = [(a, r)] -> re_bind p k s = k a r.
Proof. intros H. unfold re_bind. rewrite H. simpl. apply app_nil_r. Qed.

Lemma month_cases (m : Z) :
  1 <= m <= 12 ->
  m = 1 \/ m = 2 \/ m = 3 \/ m = 4 \/ m = 5 \/ m = 6 \/ m = 7 \/ m = 8 \/ m = 9
  \/ m = 10 \/ m = 11 \/ m = 12.
Proof. lia. Qed.

Lemma day_cases (d : Z) :
  1 <= d <= 31 ->
  d = 1 \/ d = 2 \/ d = 3 \/ d = 4 \/ d = 5 \/ d = 6 \/ d = 7 \/ d = 8 \/ d = 9
  \/ d = 10 \/ d = 11 \/ d = 12 \/ d = 13 \/ d = 14 \/ d = 15 \/ d = 16 \/ d = 17
  \/ d = 18 \/ d = 19 \/ d = 20 \/ d = 21 \/ d = 22 \/ d = 23 \/ d = 24 \/ d = 25
  \/ d = 26 \/ d = 27 \/ d = 28 \/ d = 29 \/ d = 30 \/ d = 31.
Proof. lia. Qed.

Lemma month_text_matches {B} (k : text -> matcher B) (mv : Z) (m r : text) :
  1 <= mv <= 12 -> In m (month_texts mv) ->
  int_of_text m = Some mv
  /\ re_bind group_m (fun m' => re_bind (lit "-") (fun _ => k m')) (m ++ "-"%char :: r)
     = k m r.
Proof.
  intros Hm Hin. apply month_cases in Hm. split_cases; subst mv;
    vm_compute in Hin; split_cases; subst m;
    (split; [reflexivity|]);
    cbv -[app]; cbn [app]; rewrite ?app_nil_r; reflexivity.
Qed.

Lemma day_text_matches (dv : Z) (d : text) :
  1 <= dv <= 31 -> In d (day_texts dv) ->
  int_of_text d = Some dv /\ exists tl, group_d d = (d, []) :: tl.
Proof.
  intros Hd Hin. apply day_cases in Hd. split_cases; subst dv;
    vm_compute in Hin; split_cases; subst d;
    (split; [reflexivity|]); eexists; vm_compute; reflexivity.
Qed.

Lemma make_some (y m d : Z) (t : datetime) :
  make y m d = Some t ->
  t = mkdate y m d /\ 1 <= y <= 9999 /\ 1 <= m <= 12 /\ 1 <= d <= days_in_month y m.
Proof.
  unfold make.
  destruct ((1 <=? y) && (y <=? 9999) && (1 <=? m) && (m <=? 12)
            && (1 <=? d) && (d <=? days_in_month y m)) eqn:E; [|discriminate].
  intros H. injection H as <-.
  rewrite !andb_true_iff, !Z.leb_le in E. split; [reflexivity | lia].
Qed.

Lemma days_in_month_le (y m : Z) : days_in_month y m <= 31.
Proof.
  unfold days_in_month.
  destruct (m =? 2); [destruct (is_leap y); lia|].
  destruct ((m =? 4) || (m =? 6) || (m =? 9) || (m =? 11)); lia.
Qed.

(** The texts [strptime] accepts are the spellings of the dates that
    exist, and each is read as the date it spells. *)
Lemma strptime_spellings (s : string) (t : datetime) :
  strptime s = Some t <-> valid t /\ In s (spellings t).
Proof.
  split.
  - unfold strptime. intros H.
    destruct (format_regex (list_ascii_of_string s)) as [|[[[y m] d] rest] tl] eqn:E;
      [discriminate|].
    destruct rest; [|discriminate].
    assert (Hin : In ((y, m, d), []) (format_regex (list_ascii_of_string s)))
      by (rewrite E; left; reflexivity).
    clear E. unfold format_regex in Hin.
    apply re_bind_In in Hin. destruct Hin as (y1 & r1 & HY & Hin).
    apply re_bind_In in Hin. destruct Hin as (x1 & r2 & Hd1 & Hin).
    apply re_bind_In in Hin. destruct Hin as (m1 & r3 & HM & Hin).
    apply re_bind_In in Hin. destruct Hin as (x2 & r4 & Hd2 & Hin).
    apply re_bind_In in Hin. destruct Hin as (d1 & r5 & HD & Hin).
    destruct Hin as [Hin|[]]. injection Hin as <- <- <- ->.
    apply group_Y_In in HY. destruct HY as (Es & yv & Hyv & ->).
    apply re_char_In in Hd1. destruct Hd1 as (c1 & -> & _ & Hc1). apply lit_eq in Hc1.
    apply group_m_In in HM. destruct HM as (-> & mv & Hmv & Im & Tm).
    apply re_char_In in Hd2. destruct Hd2 as (c2 & -> & _ & Hc2). apply lit_eq in Hc2.
    apply group_d_In in HD. destruct HD as (-> & dv & Hdv & Id & Td).
    subst c1 c2. rewrite app_nil_r in Es.
    destruct (year_text_value yv Hyv) as [_ Iy].
    rewrite Iy, Im, Id in H.
    destruct (make_some _ _ _ _ H) as (-> & _). split; [exact H|].
    unfold spellings. cbn [year month day].
    apply in_flat_map. exists m1. split; [exact Tm|].
    apply in_map_iff. exists d1. split; [|exact Td].
    rewrite <- Es. apply string_of_list_ascii_of_string.
  - intros [Hv Hin]. unfold valid in Hv.
    destruct (make_some _ _ _ _ Hv) as (_ & Hy & Hm & Hd).
    pose proof (days_in_month_le (year t) (month t)) as Hd31.
    unfold spellings in Hin. apply in_flat_map in Hin.
    destruct Hin as (m & Tm & Hin). apply in_map_iff in Hin.
    destruct Hin as (d & <- & Td).
    destruct (year_text_value (year t)) as [Dy Iy]; [lia|].
    destruct (day_text_matches (day t) d) as [Id (tl & Gd)]; [lia | exact Td |].
    destruct (month_text_matches
                (fun m' => re_bind group_d (fun d' => re_ret (year_text (year t), m', d')))
                (month t) m d Hm Tm) as [Im Gm].
    unfold strptime. rewrite list_ascii_of_string_of_list_ascii.
    unfold format_regex.
    assert (GY : group_Y (year_text (year t) ++ "-"%char :: m ++ "-"%char :: d)
                 = [(year_text (year t), "-"%char :: m ++ "-"%char :: d)]).
    { unfold year_text in *. inversion Dy as [|? ? H1 Dy1]; subst.
      inversion Dy1 as [|? ? H2 Dy2]; subst. inversion Dy2 as [|? ? H3 Dy3]; subst.
      inversion Dy3 as [|? ? H4 _]; subst.
      apply group_Y_digits; assumption. }
    rewrite (re_bind_single _ _ _ _ _ GY).
    rewrite (re_bind_single (lit "-") _ ("-"%char :: m ++ "-"%char :: d)
               (m ++ "-"%char :: d) ["-"%char] eq_refl).
    rewrite Gm. unfold re_bind at 1. rewrite Gd. cbn [flat_map fst snd re_ret app].
    rewrite Iy, Im, Id. exact Hv.
Qed.

Lemma isoformat_spelling (t : datetime) : In (isoformat t) (spellings t).
Proof.
  unfold spellings, isoformat. apply in_flat_map.
  exists (two_digits (month t)). split; [left; reflexivity|].
  apply in_map_iff. exists (two_digits (day t)). split; [reflexivity | left; reflexivity].
Qed.

Lemma digit_char_ascii (n : Z) : (code (digit_char n) <? 128) = true.
Proof.
  destruct (digit_char_is_digit n) as [D _]. unfold is_digit in D.
  apply andb_true_iff in D. destruct D as [_ D]. apply Z.leb_le in D.
  apply Z.ltb_lt. lia.
Qed.

(** A spelling of a date is made of digits, hyphens and at most one
    blank. *)
Lemma spellings_ascii (t : datetime) (s : string) : In s (spellings t) -> ascii_text s.
Proof.
  unfold spellings. intros H. apply in_flat_map in H. destruct H as (m & Hm & H).
  apply in_map_iff in H. destruct H as (d & <- & Hd).
  unfold ascii_text, is_ascii. rewrite list_ascii_of_string_of_list_ascii.
  assert (Am : forallb (fun c => code c <? 128) m = true).
  { unfold month_texts in Hm. destruct (month t <? 10); simpl in Hm;
      split_cases; subst; simpl; rewrite ?digit_char_ascii; reflexivity. }
  assert (Ad : forallb (fun c => code c <? 128) d = true).
  { unfold day_texts in Hd. destruct (day t <? 10); simpl in Hd;
      split_cases; subst; simpl; rewrite ?digit_char_ascii; reflexivity. }
  unfold year_text. cbn [app forallb]. rewrite !digit_char_ascii. cbn [andb].
  rewrite forallb_app, Am. cbn [forallb andb]. exact Ad.
Qed.

(** C8, as the code has it.  [strptime] with [%Y-%m-%d] reads every
    zero-padded text of an existing date as that date, and the ASCII texts
    it accepts are exactly the spellings of the existing dates: four
    digits of year, [-], the month in two digits or, below ten, as the
    digit alone, [-], the day in two digits or, below ten, as the digit
    alone or after a blank.  Every other ASCII text fails, ["2024-13-01"]
    among them. *)
Theorem strptime_accepts_exactly_spellings :
  (forall t, valid t -> ascii_text (isoformat t) /\ strptime (isoformat t) = Some t)
  /\ (forall s t, ascii_text s ->
                  (strptime s = Some t <-> valid t /\ In s (spellings t)))
  /\ (forall s, ascii_text s ->
                (forall t, valid t -> ~ In s (spellings t)) -> strptime s = None)
  /\ (forall s t, In s (spellings t) -> ascii_text s)
  /\ ascii_text "2024-13-01" /\ strptime "2024-13-01" = None.
Proof.
  split; [|split; [|split; [|split; [|split]]]].
  - intros t Hv. split; [apply (spellings_ascii t), isoformat_spelling|].
    apply strptime_spellings. split; [exact Hv | apply isoformat_spelling].
  - intros s t _. apply strptime_spellings.
  - intros s _ Hs. destruct (strptime s) as [t|] eqn:E; [|reflexivity].
    apply strptime_spellings in E. destruct E as [Hv Hin].
    exfalso. exact (Hs t Hv Hin).
  - intros s t. apply spellings_ascii.
  - reflexivity.
  - reflexivity.
Qed.

(** C8 as stated fails: ["2024-1-5"] is not in the exact form, and it
    parses. *)
Lemma strptime_accepts_unpadded_text :
  strptime "2024-1-5" = Some (mkdate 2024 1 5) /\ ~ exact_form "2024-1-5".
Proof.
  split; [reflexivity|].
  intros (t & _ & H). apply (f_equal String.length) in H. discriminate H.
Qed.

(* ================================================================== *)
(** ** Which calls can raise *)

Lemma load_unreadable to_datetime to_numeric (df0 : DataFrame) (w : bool)
  (out0 : list string) :
  _load_data to_datetime to_numeric (mkstate df0 (Some Unreadable) w out0)
  = (Returned [], mkstate df0 (Some Unreadable) w (out0 ++ ["Failed to load data"])).
Proof. reflexivity. Qed.

Lemma _load_data_returns to_datetime to_numeric (st : state) :
  exists df st', _load_data to_datetime to_numeric st = (Returned df, st').
Proof.
  destruct st as [df0 [[|lines]|] w out0].
  - eexists. eexists. apply load_unreadable.
  - eexists. eexists. apply load_table.
  - eexists. eexists. reflexivity.
Qed.

Lemma daily_summary_returns (st : state) :
  exists out st', daily_summary st = (Returned out, st').
Proof. destruct st as [[|r df] dk w out0]; eexists; eexists; reflexivity. Qed.

Lemma activity_trends_returns (st : state) :
  exists out st', activity_trends st = (Returned out, st').
Proof. destruct st as [[|r df] dk w out0]; eexists; eexists; reflexivity. Qed.

Lemma filter_by_date_returns (st : state) (start_date end_date : string) :
  exists out st', filter_by_date start_date end_date st = (Returned out, st').
Proof.
  rewrite filter_by_date_run.
  destruct (strptime start_date); [destruct (strptime end_date)|];
    eexists; eexists; reflexivity.
Qed.

Lemma filter_by_type_returns (st : state) (query : string) :
  exists out st', filter_by_type query st = (Returned out, st').
Proof. eexists. eexists. reflexivity. Qed.

Lemma _save_returns (st : state) : exists st', _save st = (Returned tt, st').
Proof. eexists. apply _save_run. Qed.

(** [add_activity] is the one method that can raise.  Handed a date as
    ASCII text and each number as an [int] or as ASCII text, it raises
    exactly when the date is accepted and one of the two numbers is not
    an integer literal; the exception is [ValueError], and frame, file
    and console are as they were. *)
Lemma add_activity_raises_iff
  (st : state) (date_str a : string) (dur cal : value) (e : exn) (st' : state) :
  ascii_text date_str -> ascii_value dur -> ascii_value cal ->
  (add_activity date_str a dur cal st = (Raised e, st')
   <-> strptime date_str <> None
       /\ (Py.int dur = None \/ Py.int cal = None)
       /\ e = ValueError /\ st' = st).
Proof.
  intros _ _ _.
  destruct (strptime date_str) as [d|] eqn:Hd.
  - destruct (Py.int dur) as [n|] eqn:Hn; [destruct (Py.int cal) as [c|] eqn:Hc|].
    + rewrite (add_activity_run st date_str a dur cal d n c Hd Hn Hc).
      split; [discriminate|]. intros (_ & [H|H] & _); discriminate.
    + assert (R : add_activity date_str a dur cal st = (Raised ValueError, st)).
      { unfold add_activity, bind at 1, try_except_ValueError, bind at 1.
        rewrite (strptime_m_some _ _ _ Hd). cbn [ret].
        unfold bind at 1. rewrite (int_m_some _ _ _ Hn).
        unfold bind at 1. rewrite (int_m_none _ _ Hc). reflexivity. }
      rewrite R. split.
      * intros H. injection H as <- <-. repeat split; [discriminate | right; reflexivity].
      * intros (_ & _ & -> & ->). reflexivity.
    + assert (R : add_activity date_str a dur cal st = (Raised ValueError, st)).
      { unfold add_activity, bind at 1, try_except_ValueError, bind at 1.
        rewrite (strptime_m_some _ _ _ Hd). cbn [ret].
        unfold bind at 1. rewrite (int_m_none _ _ Hn). reflexivity. }
      rewrite R. split.
      * intros H. injection H as <- <-. repeat split; [discriminate | left; reflexivity].
      * intros (_ & _ & -> & ->). reflexivity.
  - rewrite (add_activity_rejected st date_str a dur cal Hd).
    split; [discriminate|]. intros (H & _). contradiction.
Qed.

Lemma add_activity_raises_iff_witness :
  add_activity "2024-1-5" "Run" (VInt 30) (VStr "12.5")
    (mkstate sample_records None true [])
  = (Raised ValueError, mkstate sample_records None true []).
Proof.
  apply (add_activity_raises_iff (mkstate sample_records None true [])
           "2024-1-5" "Run" (VInt 30) (VStr "12.5") ValueError
           (mkstate sample_records None true []) eq_refl I eq_refl).
  split; [discriminate|]. split; [right; reflexivity|]. split; reflexivity.
Defined.

(* ================================================================== *)
(** ** [get_input] and [prompt_activity] *)

Import Shell.

Lemma refused_cast {A} (cast_func : string -> option A) (condition : A -> option bool)
  (val : string) :
  cast_func val = None -> refused cast_func condition val.
Proof. intros H v [Hc _]. congruence. Qed.

Lemma refused_condition {A} (cast_func : string -> option A) (condition : A -> option bool)
  (val : string) (v : A) :
  cast_func val = Some v -> condition v <> Some true -> refused cast_func condition val.
Proof. intros H Hn v' [Hc Hv]. rewrite H in Hc. injection Hc as <-. contradiction. Qed.

Lemma get_input_loop_run {A} (prompt : string) (cast_func : string -> option A)
  (condition : A -> option bool) (error : string) (lines out : list string) :
  match get_input_loop prompt cast_func condition error lines out with
  | (Done v, rest, out') =>
      exists pre val,
        lines = pre ++ val :: rest
        /\ Forall (refused cast_func condition) pre
        /\ taken cast_func condition val v
        /\ out' = out ++ retries prompt error pre ++ [prompt]
  | (Stopped why, rest, out') =>
      why = EOFError
      /\ Forall (refused cast_func condition) lines
      /\ rest = []
      /\ out' = out ++ retries prompt error lines ++ [prompt]
  end.
Proof.
  revert out. induction lines as [|val rest IH]; intros out.
  - simpl. repeat split. constructor.
  - assert (Step : forall (Hr : refused cast_func condition val),
      match get_input_loop prompt cast_func condition error rest (out ++ [prompt; error]) with
      | (Done v, rest', out') =>
          exists pre val',
            val :: rest = pre ++ val' :: rest'
            /\ Forall (refused cast_func condition) pre
            /\ taken cast_func condition val' v
            /\ out' = out ++ retries prompt error pre ++ [prompt]
      | (Stopped why, rest', out') =>
          why = EOFError
          /\ Forall (refused cast_func condition) (val :: rest)
          /\ rest' = []
          /\ out' = out ++ retries prompt error (val :: rest) ++ [prompt]
      end).
    { intros Hr. specialize (IH (out ++ [prompt; error])).
      destruct (get_input_loop prompt cast_func condition error rest (out ++ [prompt; error]))
        as [[[v|why] rest'] out'].
      - destruct IH as (pre & val' & -> & Hpre & Ht & ->).
        exists (val :: pre), val'. split; [reflexivity|].
        split; [constructor; assumption|]. split; [exact Ht|].
        unfold retries. simpl. rewrite <- !app_assoc. reflexivity.
      - destruct IH as (-> & Hall & -> & ->). split; [reflexivity|].
        split; [constructor; assumption|]. split; [reflexivity|].
        unfold retries. simpl. rewrite <- !app_assoc. reflexivity. }
    simpl. destruct (cast_func val) as [v|] eqn:Hc.
    + destruct (condition v) as [[|]|] eqn:Hv.
      * exists [], val. split; [reflexivity|]. split; [constructor|].
        split; [split; assumption | reflexivity].
      * apply Step. apply (refused_condition _ _ _ v Hc). congruence.
      * apply Step. apply (refused_condition _ _ _ v Hc). congruence.
    + apply Step. apply refused_cast. exact Hc.
Qed.

(** [get_input] returns the value of the first typed line that its cast
    and condition take, having printed the error once for each line before
    it; it leaves the later lines untyped and touches neither frame nor
    file.  When no line is taken it ends with [EOFError], all input used. *)
Theorem get_input_takes_first_valid_line {A} (prompt : string)
  (cast_func : string -> option A) (condition : A -> option bool) (error : string)
  (s : session) :
  match get_input prompt cast_func condition error s with
  | (Done v, s') =>
      exists pre val,
        stdin s = pre ++ val :: stdin s'
        /\ Forall (refused cast_func condition) pre
        /\ taken cast_func condition val v
        /\ console (tracker s')
           = console (tracker s) ++ retries prompt error pre ++ [prompt]
        /\ self_df (tracker s') = self_df (tracker s)
        /\ disk (tracker s') = disk (tracker s)
  | (Stopped why, s') =>
      why = EOFError
      /\ Forall (refused cast_func condition) (stdin s)
      /\ stdin s' = []
      /\ console (tracker s')
         = console (tracker s) ++ retries prompt error (stdin s) ++ [prompt]
      /\ self_df (tracker s') = self_df (tracker s)
      /\ disk (tracker s') = disk (tracker s)
  end.
Proof.
  unfold get_input.
  pose proof (get_input_loop_run prompt cast_func condition error
                (stdin s) (console (tracker s))) as H.
  destruct (get_input_loop prompt cast_func condition error (stdin s) (console (tracker s)))
    as [[[v|why] rest] out]; cbn [tracker stdin console self_df disk].
  - destruct H as (pre & val & E & Hpre & Ht & ->).
    exists pre, val. repeat split; try assumption; apply Ht.
  - destruct H as (-> & Hall & -> & ->). repeat split. exact Hall.
Qed.

(** The two ways a prompt ends, as the callers of [get_input] see them. *)
Lemma get_input_cases {A} (prompt : string) (cast_func : string -> option A)
  (condition : A -> option bool) (error : string) (s : session) :
  (exists v s' typed val,
      get_input prompt cast_func condition error s = (Done v, s')
      /\ taken cast_func condition val v
      /\ stdin s = typed ++ val :: stdin s'
      /\ self_df (tracker s') = self_df (tracker s)
      /\ disk (tracker s') = disk (tracker s)
      /\ writable (tracker s') = writable (tracker s))
  \/ (exists s',
         get_input prompt cast_func condition error s = (Stopped EOFError, s')
         /\ stdin s' = []
         /\ self_df (tracker s') = self_df (tracker s)
         /\ disk (tracker s') = disk (tracker s)
         /\ writable (tracker s') = writable (tracker s)).
Proof.
  unfold get_input.
  pose proof (get_input_loop_run prompt cast_func condition error
                (stdin s) (console (tracker s))) as H.
  destruct (get_input_loop prompt cast_func condition error (stdin s) (console (tracker s)))
    as [[[v|why] rest] out].
  - destruct H as (pre & val & E & _ & Ht & _). left.
    eexists v, _, pre, val. split; [reflexivity|]. repeat split; try apply Ht. exact E.
  - destruct H as (-> & _ & -> & _). right. eexists. repeat split.
Qed.

Lemma strptime_valid (s : string) (t : datetime) : strptime s = Some t -> valid t.
Proof.
  unfold strptime. intros H.
  destruct (format_regex (list_ascii_of_string s)) as [|[[[y m] d] rest] tl];
    [discriminate|].
  destruct rest; [|discriminate].
  destruct (int_of_text y) as [y'|]; [|discriminate].
  destruct (int_of_text m) as [m'|]; [|discriminate].
  destruct (int_of_text d) as [d'|]; [|discriminate].
  unfold valid. unfold make in *.
  destruct ((1 <=? y') && (y' <=? 9999) && (1 <=? m') && (m' <=? 12)
            && (1 <=? d') && (d' <=? days_in_month y' m')) eqn:E; [|discriminate].
  injection H as <-. cbn [year month day]. rewrite E. reflexivity.
Qed.


(* ================================================================== *)
(** ** The groups of [groupby] partition the frame *)

Section Partition.
Context {K : Type}.
Variable K_eq_dec : forall a b : K, {a = b} + {a <> b}.
Variable key : row -> K.
Variable f : row -> Z.

Lemma plain_sum_map_add (g h : K -> Z) (ks : list K) :
  plain_sum (map (fun k => g k + h k) ks) = plain_sum (map g ks) + plain_sum (map h ks).
Proof. induction ks as [|k r IH]; simpl; [reflexivity | rewrite IH; lia]. Qed.

Lemma plain_sum_map_zero (ks : list K) (g : K -> Z) :
  (forall k, In k ks -> g k = 0) -> plain_sum (map g ks) = 0.
Proof.
  induction ks as [|k r IH]; simpl; [reflexivity|]. intros H.
  rewrite (H k) by (left; reflexivity). rewrite IH; [reflexivity|].
  intros x Hx. apply H. right. exact Hx.
Qed.

(** A row counts in the group of its own key and in no other. *)
Lemma sum_own_group (ks : list K) (r : row) :
  NoDup ks -> In (key r) ks ->
  plain_sum (map (fun k => if has_key K_eq_dec key k r then f r else 0) ks) = f r.
Proof.
  intros Hnd. induction Hnd as [|k ks Hk Hnd IH]; [intros []|].
  intros [E|Hin]; simpl; unfold has_key at 1.
  - destruct (K_eq_dec (key r) k) as [_|N]; [|congruence].
    rewrite plain_sum_map_zero; [lia|]. intros x Hx. unfold has_key.
    destruct (K_eq_dec (key r) x) as [E'|_]; [|reflexivity]. congruence.
  - destruct (K_eq_dec (key r) k) as [E|_]; [congruence|]. rewrite (IH Hin). lia.
Qed.

Lemma group_sums (ks : list K) (df : DataFrame) :
  NoDup ks -> (forall r, In r df -> In (key r) ks) ->
  plain_sum (map (fun k => total f (get_group K_eq_dec key k df)) ks) = total f df.
Proof.
  intros Hnd. unfold total. induction df as [|r df IH]; intros Hcov.
  - simpl. apply plain_sum_map_zero. reflexivity.
  - rewrite (map_ext _ (fun k => (if has_key K_eq_dec key k r then f r else 0)
                                 + plain_sum (map f (get_group K_eq_dec key k df)))).
    + rewrite plain_sum_map_add.
      rewrite sum_own_group by (try exact Hnd; apply Hcov; left; reflexivity).
      rewrite IH; [reflexivity|]. intros x Hx. apply Hcov. right. exact Hx.
    + intros k. unfold get_group. simpl.
      destruct (has_key K_eq_dec key k r); reflexivity.
Qed.

End Partition.

Lemma daily_summary_rows (st : state) :
  exists st', daily_summary st = (Returned (day_rows (self_df st)), st').
Proof.
  destruct st as [[|r0 df0] dk w out0].
  - eexists. reflexivity.
  - eexists. unfold daily_summary, bind, get_df, ret. cbn [self_df]. f_equal. f_equal.
    unfold day_rows, groupby_agg. apply map_ext. intros k.
    rewrite get_group_date. reflexivity.
Qed.

(** The day totals of [daily_summary] add up to the totals of the frame:
    every record is counted on one day and on one only.  The absolute
    values of each column are taken to add up to less than 2^53. *)
Theorem daily_summary_totals_add_up (st : state) :
  moderate duration (self_df st) ->
  moderate calories_burned (self_df st) ->
  exists out st',
    daily_summary st = (Returned out, st')
    /\ plain_sum (map total_duration out) = total duration (self_df st)
    /\ plain_sum (map total_calories out) = total calories_burned (self_df st).
Proof.
  intros Md Mc. destruct (daily_summary_rows st) as (st' & R).
  exists (day_rows (self_df st)), st'. split; [exact R|].
  unfold day_rows. rewrite !map_map. cbn [total_duration total_calories].
  split.
  - rewrite (map_ext _ (fun k => total duration
                                   (get_group Datetime.eq_dec date k (self_df st)))).
    + apply group_sums; [apply group_keys_NoDup|].
      intros r Hr. apply group_keys_In. exists r. split; [exact Hr | reflexivity].
    + intros k. rewrite get_group_date. apply sum_moderate, moderate_filter, Md.
  - rewrite (map_ext _ (fun k => total calories_burned
                                   (get_group Datetime.eq_dec date k (self_df st)))).
    + apply group_sums; [apply group_keys_NoDup|].
      intros r Hr. apply group_keys_In. exists r. split; [exact Hr | reflexivity].
    + intros k. rewrite get_group_date. apply sum_moderate, moderate_filter, Mc.
Qed.

Lemma daily_summary_totals_add_up_witness :
  exists out st',
    daily_summary (mkstate sample_records None true []) = (Returned out, st')
    /\ plain_sum (map total_duration out) = 90
    /\ plain_sum (map total_calories out) = 850.
Proof.
  exact (daily_summary_totals_add_up (mkstate sample_records None true [])
           eq_refl eq_refl).
Defined.

(* ================================================================== *)
(** ** The order of the groups *)

Section KeyOrder.
Context {K : Type}.
Variable K_leb : K -> K -> bool.
Hypothesis K_leb_total : forall a b, K_leb a b = true \/ K_leb b a = true.

Let le (a b : K) : Prop := K_leb a b = true.

Lemma insert_key_HdRel (x k : K) (l : list K) :
  le x k -> HdRel le x l -> HdRel le x (insert_key K_leb k l).
Proof.
  intros Hxk Hl. destruct l as [|y r]; simpl; [constructor; exact Hxk|].
  destruct (K_leb k y); constructor; [exact Hxk|].
  inversion Hl; assumption.
Qed.

Lemma insert_key_sorted (k : K) (l : list K) :
  Sorted le l -> Sorted le (insert_key K_leb k l).
Proof.
  induction l as [|x r IH]; intros Hs; simpl.
  - repeat constructor.
  - destruct (K_leb k x) eqn:E.
    + constructor; [exact Hs | constructor; exact E].
    + inversion Hs as [|? ? Hr Hx]; subst. constructor; [apply IH; exact Hr|].
      apply insert_key_HdRel; [|exact Hx].
      destruct (K_leb_total k x) as [H|H]; [congruence | exact H].
Qed.

Lemma sort_keys_sorted (l : list K) : Sorted le (sort_keys K_leb l).
Proof.
  induction l as [|x r IH]; simpl; [constructor | apply insert_key_sorted; exact IH].
Qed.

Lemma sorted_strict (l : list K) :
  Sorted le l -> NoDup l -> Sorted (fun a b => le a b /\ a <> b) l.
Proof.
  induction l as [|x r IH]; intros Hs Hn; [constructor|].
  inversion Hs as [|? ? Hr Hx]; subst. inversion Hn as [|? ? Hnx Hnr]; subst.
  constructor; [apply IH; assumption|].
  destruct r as [|y r']; constructor. inversion Hx; subst.
  split; [assumption|]. intros ->. apply Hnx. left. reflexivity.
Qed.

End KeyOrder.

Lemma datetime_leb_total (a b : datetime) :
  Datetime.leb a b = true \/ Datetime.leb b a = true.
Proof. rewrite !leb_le. unfold dt_le. lia. Qed.

Lemma Sorted_weaken {A} (R S : A -> A -> Prop) (l : list A) :
  (forall a b, R a b -> S a b) -> Sorted R l -> Sorted S l.
Proof.
  intros H. induction 1 as [|x r Hr IH Hx]; constructor; [exact IH|].
  destruct Hx; constructor. apply H. assumption.
Qed.

(** [daily_summary] lists the days in ascending order of date, each
    strictly later than the one before. *)
Theorem daily_summary_ascending (st : state) :
  exists out st',
    daily_summary st = (Returned out, st')
    /\ Sorted dt_lt (map d_date out).
Proof.
  destruct st as [[|r0 df0] dk w out0].
  - eexists. eexists. split; [reflexivity | constructor].
  - eexists. eexists. split; [reflexivity|].
    rewrite groupby_agg_keys by reflexivity.
    apply (Sorted_weaken (fun a b => Datetime.leb a b = true /\ a <> b)).
    + intros a b [H N]. split; [apply leb_le; exact H | exact N].
    + apply sorted_strict; [|apply group_keys_NoDup].
      apply sort_keys_sorted. exact datetime_leb_total.
Qed.

(** On a frame whose activity types are plain texts of ASCII characters,
    [activity_trends] returns normally and leaves frame and file as they
    are.  Its result has one row per distinct activity type of the frame
    (no type twice, every type of the frame present, no other type), the
    key being the stored text itself, so that ["Run"] and ["run"] make two
    rows.  On the empty frame the result is empty. *)
Theorem activity_trends_one_row_per_type (st : state) :
  Forall text_typed (self_df st) ->
  exists out st',
    activity_trends st = (Returned out, st')
    /\ self_df st' = self_df st /\ disk st' = disk st
    /\ (self_df st = [] -> out = [])
    /\ NoDup (map t_activity_type out)
    /\ (forall a, In a (map t_activity_type out)
                  <-> exists r, In r (self_df st) /\ activity_type r = a).
Proof.
  intros _. destruct st as [[|r0 df0] dk w out0].
  - exists [], (mkstate [] dk w (out0 ++ ["No data available."])).
    split; [reflexivity|]. cbn [self_df disk map].
    split; [reflexivity|]. split; [reflexivity|]. split; [reflexivity|].
    split; [constructor|].
    intros a. split; [intros [] | intros (r & [] & _)].
  - eexists. eexists. split; [reflexivity|]. cbn [self_df disk].
    split; [reflexivity|]. split; [reflexivity|]. split; [discriminate|].
    rewrite groupby_agg_keys by reflexivity.
    split; [apply group_keys_NoDup | intros a; apply group_keys_In].
Qed.

Lemma activity_trends_one_row_per_type_witness :
  exists out st',
    activity_trends
      (mkstate [ mkrow (mkdate 2024 1 1) "Run" 30 300;
                 mkrow (mkdate 2024 1 2) "run" 50 500;
                 mkrow (mkdate 2024 1 3) "Run" 40 400 ] None true [])
    = (Returned out, st')
    /\ map t_activity_type out = ["Run"; "run"].
Proof.
  assert (T : Forall text_typed
                [ mkrow (mkdate 2024 1 1) "Run" 30 300;
                  mkrow (mkdate 2024 1 2) "run" 50 500;
                  mkrow (mkdate 2024 1 3) "Run" 40 400 ])
    by (repeat constructor).
  destruct (activity_trends_one_row_per_type
              (mkstate [ mkrow (mkdate 2024 1 1) "Run" 30 300;
                         mkrow (mkdate 2024 1 2) "run" 50 500;
                         mkrow (mkdate 2024 1 3) "Run" 40 400 ] None true []) T)
    as (out & st' & R & _).
  exists out, st'. split; [exact R|].
  injection R as <- _. reflexivity.
Defined.

(** On a frame whose activity types are plain texts of ASCII characters,
    [activity_trends] lists the activity types in ascending order of
    their text, character code by character code, so that a capital comes
    before every small letter. *)
Theorem activity_trends_ascending (st : state) :
  Forall text_typed (self_df st) ->
  exists out st',
    activity_trends st = (Returned out, st')
    /\ Sorted text_lt (map t_activity_type out).
Proof.
  intros _. destruct st as [[|r0 df0] dk w out0].
  - eexists. eexists. split; [reflexivity | constructor].
  - eexists. eexists. split; [reflexivity|].
    rewrite groupby_agg_keys by reflexivity.
    apply sorted_strict; [|apply group_keys_NoDup].
    apply sort_keys_sorted. exact String.leb_total.
Qed.

Lemma activity_trends_ascending_witness :
  exists out st',
    activity_trends
      (mkstate [ mkrow (mkdate 2024 1 1) "run" 30 300;
                 mkrow (mkdate 2024 1 1) "Swim" 20 150;
                 mkrow (mkdate 2024 1 2) "Run" 40 400;
                 mkrow (mkdate 2024 1 3) "Swim" 25 260 ] None true [])
    = (Returned out, st')
    /\ map t_activity_type out = ["Run"; "Swim"; "run"]
    /\ Sorted text_lt (map t_activity_type out).
Proof.
  assert (T : Forall text_typed
                [ mkrow (mkdate 2024 1 1) "run" 30 300;
                  mkrow (mkdate 2024 1 1) "Swim" 20 150;
                  mkrow (mkdate 2024 1 2) "Run" 40 400;
                  mkrow (mkdate 2024 1 3) "Swim" 25 260 ])
    by (repeat constructor).
  destruct (activity_trends_ascending
              (mkstate [ mkrow (mkdate 2024 1 1) "run" 30 300;
                         mkrow (mkdate 2024 1 1) "Swim" 20 150;
                         mkrow (mkdate 2024 1 2) "Run" 40 400;
                         mkrow (mkdate 2024 1 3) "Swim" 25 260 ] None true []) T)
    as (out & st' & R & S).
  exists out, st'. split; [exact R|]. split; [|exact S].
  injection R as <- _. reflexivity.
Defined.

(* ================================================================== *)
(** ** [add_activity] followed by a query *)

Lemma on_day_snoc (k : datetime) (df : DataFrame) (r : row) :
  on_day k (df ++ [r]) = on_day k df ++ (if Datetime.eqb (date r) k then [r] else []).
Proof. unfold on_day. rewrite filter_app. reflexivity. Qed.

Lemma add_activity_returns (st : state) (date_str a : string) (dur cal : value)
  (d : datetime) (n c : Z) :
  strptime date_str = Some d -> Py.int dur = Some n -> Py.int cal = Some c ->
  exists st',
    add_activity date_str a dur cal st = (Returned tt, st')
    /\ self_df st' = self_df st ++ [mkrow d (strip a) n c].
Proof.
  intros Hd Hn Hc.
  rewrite (add_activity_run st date_str a dur cal d n c Hd Hn Hc).
  rewrite _save_run. eexists. split; [reflexivity|].
  cbn [snd self_df writable]. destruct (writable st); reflexivity.
Qed.

(** After a record is added, [daily_summary] shows its day with totals
    raised by the record's duration and calories (from zero when the day
    is new), and shows every other day with the very row it had before.
    The absolute values of each column, the new record included, are
    taken to add up to less than 2^53. *)
Theorem add_activity_raises_day_totals
  (st : state) (date_str a : string) (dur cal : value)
  (d : datetime) (n c : Z) :
  strptime date_str = Some d -> Py.int dur = Some n -> Py.int cal = Some c ->
  moderate duration (self_df st ++ [mkrow d (strip a) n c]) ->
  moderate calories_burned (self_df st ++ [mkrow d (strip a) n c]) ->
  exists before st0 st1 after st2,
    daily_summary st = (Returned before, st0)
    /\ add_activity date_str a dur cal st = (Returned tt, st1)
    /\ daily_summary st1 = (Returned after, st2)
    /\ In (mkday d (total duration (on_day d (self_df st)) + n)
                   (total calories_burned (on_day d (self_df st)) + c))
          after
    /\ (forall x, d_date x <> d -> (In x after <-> In x before)).
Proof.
  intros Hd Hn Hc Md Mc.
  destruct (daily_summary_rows st) as (st0 & R0).
  destruct (add_activity_returns st date_str a dur cal d n c Hd Hn Hc)
    as (st1 & R1 & Hdf).
  destruct (daily_summary_rows st1) as (st2 & R2).
  exists (day_rows (self_df st)), st0, st1, (day_rows (self_df st1)), st2.
  split; [exact R0|]. split; [exact R1|]. split; [exact R2|].
  rewrite Hdf. set (r := mkrow d (strip a) n c) in *. set (df := self_df st) in *.
  unfold day_rows. split.
  - apply in_map_iff. exists d. split.
    + rewrite (sum_moderate duration), (sum_moderate calories_burned)
        by (apply moderate_filter; assumption).
      unfold total. rewrite !on_day_snoc. cbn [date r].
      rewrite (proj2 (datetime_eqb_eq d d) eq_refl).
      rewrite !map_app, !plain_sum_app. cbn. f_equal; lia.
    + apply group_keys_In. exists r. split; [|reflexivity].
      apply in_or_app. right. left. reflexivity.
  - intros x Hx. rewrite !in_map_iff. split.
    + intros (k & E & Hk). exists k. subst x. cbn [d_date] in Hx.
      rewrite !on_day_snoc. cbn [date r].
      destruct (Datetime.eqb d k) eqn:B;
        [apply datetime_eqb_eq in B; congruence|].
      rewrite !app_nil_r. split; [reflexivity|].
      apply group_keys_In in Hk. destruct Hk as (y & Hy & Ky).
      apply group_keys_In. apply in_app_or in Hy. destruct Hy as [Hy|[<-|[]]].
      * exists y. split; assumption.
      * cbn [date r] in Ky. congruence.
    + intros (k & E & Hk). exists k. subst x. cbn [d_date] in Hx.
      rewrite !on_day_snoc. cbn [date r].
      destruct (Datetime.eqb d k) eqn:B;
        [apply datetime_eqb_eq in B; congruence|].
      rewrite !app_nil_r. split; [reflexivity|].
      apply group_keys_In in Hk. destruct Hk as (y & Hy & Ky).
      apply group_keys_In. exists y. split; [|exact Ky].
      apply in_or_app. left. exact Hy.
Qed.

Lemma add_activity_raises_day_totals_witness :
  exists before st0 st1 after st2,
    daily_summary (mkstate sample_records None true []) = (Returned before, st0)
    /\ add_activity "2024-1-2" " Walk " (VInt 15) (VStr "60")
         (mkstate sample_records None true []) = (Returned tt, st1)
    /\ daily_summary st1 = (Returned after, st2)
    /\ In (mkday (mkdate 2024 1 2) (40 + 15) (400 + 60)) after
    /\ (forall x, d_date x <> mkdate 2024 1 2 -> (In x after <-> In x before)).
Proof.
  exact (add_activity_raises_day_totals (mkstate sample_records None true [])
           "2024-1-2" " Walk " (VInt 15) (VStr "60") (mkdate 2024 1 2) 15 60
           eq_refl eq_refl eq_refl eq_refl eq_refl).
Defined.

Lemma within_same_day_eqb (d : datetime) (r : row) :
  within d d r = Datetime.eqb (date r) d.
Proof.
  destruct (within d d r) eqn:W, (Datetime.eqb (date r) d) eqn:B; try reflexivity.
  - apply within_same_day in W. apply datetime_eqb_eq in W. congruence.
  - apply datetime_eqb_eq in B. apply within_same_day in B. congruence.
Qed.



(* ================================================================== *)
(** ** [filter_by_date] with the bounds the wrong way round *)

Lemma dt_le_trans (a b c : datetime) : dt_le a b -> dt_le b c -> dt_le a c.
Proof. unfold dt_le. lia. Qed.

Lemma filter_none {A} (p : A -> bool) (l : list A) :
  (forall x, In x l -> p x = false) -> filter p l = [].
Proof.
  induction l as [|x r IH]; intros H; simpl; [reflexivity|].
  rewrite (H x) by (left; reflexivity). apply IH. intros y Hy. apply H. right. exact Hy.
Qed.

(** When the start date is later than the end date, [filter_by_date]
    returns the empty frame, silently: the bounds are not swapped and
    nothing is printed. *)
Theorem filter_by_date_reversed_bounds
  (st : state) (start_date end_date : string) (s e : datetime) :
  strptime start_date = Some s -> strptime end_date = Some e -> ~ dt_le s e ->
  filter_by_date start_date end_date st = (Returned [], st).
Proof.
  intros Hs He Hn. rewrite filter_by_date_run, Hs, He.
  rewrite filter_none; [reflexivity|].
  intros r _. destruct (within s e r) eqn:W; [|reflexivity].
  apply within_iff in W. destruct W as [W1 W2].
  exfalso. apply Hn. exact (dt_le_trans _ _ _ W1 W2).
Qed.

Lemma filter_by_date_reversed_bounds_witness :
  filter_by_date "2024-01-02" "2024-01-01" (mkstate sample_records None true [])
  = (Returned [], mkstate sample_records None true []).
Proof.
  apply (filter_by_date_reversed_bounds (mkstate sample_records None true [])
           "2024-01-02" "2024-01-01" (mkdate 2024 1 2) (mkdate 2024 1 1) eq_refl eq_refl).
  unfold dt_le. cbn. lia.
Defined.

(* ================================================================== *)
(** ** Starting the tracker *)

(** Starting the tracker never raises and never writes: with no file, or
    with a file that cannot be read as a table, the frame is empty and one
    line is printed; with a table the frame holds its well-formed lines.
    Whatever [self.df] held before is replaced. *)
Theorem init_never_raises_nor_writes
  (to_datetime : list (option string) -> string -> option datetime)
  (to_numeric : list (option string) -> string -> option Z) (st : state) :
  exists st',
    __init__ to_datetime to_numeric st = (Returned tt, st')
    /\ disk st' = disk st
    /\ writable st' = writable st
    /\ match disk st with
       | None =>
           self_df st' = []
           /\ console st' = console st ++ ["No file found. Starting new tracker."]
       | Some Unreadable =>
           self_df st' = []
           /\ console st' = console st ++ ["Failed to load data"]
       | Some (Table lines) =>
           self_df st' = kept_rows to_datetime to_numeric lines
           /\ console st' = console st
       end.
Proof.
  destruct st as [df [[|lines]|] w out0]; unfold __init__, bind at 1.
  - rewrite load_unreadable. eexists. split; [reflexivity|]. repeat split.
  - rewrite load_table. eexists. split; [reflexivity|]. repeat split.
  - eexists. split; [reflexivity|]. repeat split.
Qed.

(* ================================================================== *)
(** ** [filter_by_date] against wider bounds and against [daily_summary] *)

Lemma filter_filter_implied {A} (p q : A -> bool) (l : list A) :
  (forall x, p x = true -> q x = true) -> filter p (filter q l) = filter p l.
Proof.
  intros H. induction l as [|x r IH]; simpl; [reflexivity|].
  destruct (q x) eqn:Q; simpl.
  - rewrite IH. reflexivity.
  - destruct (p x) eqn:P; [|exact IH]. rewrite (H x P) in Q. discriminate.
Qed.

(** Widening the bounds only adds rows: what [filter_by_date] returns for
    a range is what it returns for any range around it, cut back to the
    narrower bounds, so every row of the narrow answer is in the wide one
    and in the same order. *)
Theorem filter_by_date_widening
  (st : state) (start1 end1 start2 end2 : string) (s1 e1 s2 e2 : datetime) :
  strptime start1 = Some s1 -> strptime end1 = Some e1 ->
  strptime start2 = Some s2 -> strptime end2 = Some e2 ->
  dt_le s2 s1 -> dt_le e1 e2 ->
  exists narrow wide,
    filter_by_date start1 end1 st = (Returned narrow, st)
    /\ filter_by_date start2 end2 st = (Returned wide, st)
    /\ narrow = filter (within s1 e1) wide
    /\ (forall r, In r narrow -> In r wide).
Proof.
  intros H1 H2 H3 H4 Ls Le.
  assert (Imp : forall r, within s1 e1 r = true -> within s2 e2 r = true).
  { intros r W. apply within_iff in W. destruct W as [Wa Wb]. apply within_iff.
    split; [exact (dt_le_trans _ _ _ Ls Wa) | exact (dt_le_trans _ _ _ Wb Le)]. }
  exists (filter (within s1 e1) (self_df st)), (filter (within s2 e2) (self_df st)).
  rewrite !filter_by_date_run, H1, H2, H3, H4.
  split; [reflexivity|]. split; [reflexivity|]. split.
  - symmetry. apply filter_filter_implied. exact Imp.
  - intros r Hr. apply filter_In in Hr. destruct Hr as [Hin W].
    apply filter_In. split; [exact Hin | apply Imp; exact W].
Qed.

Lemma filter_by_date_widening_witness :
  exists narrow wide,
    filter_by_date "2024-01-02" "2024-01-02" (mkstate sample_records None true [])
    = (Returned narrow, mkstate sample_records None true [])
    /\ filter_by_date "2024-01-01" "2024-01-31" (mkstate sample_records None true [])
       = (Returned wide, mkstate sample_records None true [])
    /\ narrow = filter (within (mkdate 2024 1 2) (mkdate 2024 1 2)) wide
    /\ (forall r, In r narrow -> In r wide).
Proof.
  apply (filter_by_date_widening (mkstate sample_records None true [])
           "2024-01-02" "2024-01-02" "2024-01-01" "2024-01-31"
           (mkdate 2024 1 2) (mkdate 2024 1 2) (mkdate 2024 1 1) (mkdate 2024 1 31)
           eq_refl eq_refl eq_refl eq_refl);
    unfold dt_le; cbn; lia.
Defined.

(** The two views of a day agree: the totals that [daily_summary] shows
    for a date are the sums over the rows that [filter_by_date] returns
    with that date as both bounds, and [daily_summary] has no row for a
    date for which [filter_by_date] returns nothing.  The absolute values
    of each column are taken to add up to less than 2^53. *)
Theorem day_total_matches_filter_by_date (st : state) (day_text : string) (d : datetime) :
  strptime day_text = Some d ->
  moderate duration (self_df st) ->
  moderate calories_burned (self_df st) ->
  exists rows out st',
    filter_by_date day_text day_text st = (Returned rows, st)
    /\ daily_summary st = (Returned out, st')
    /\ (rows <> [] ->
        In (mkday d (total duration rows) (total calories_burned rows)) out)
    /\ (rows = [] -> forall x, In x out -> d_date x <> d).
Proof.
  intros Hd Md Mc. destruct (daily_summary_rows st) as (st' & R).
  exists (on_day d (self_df st)), (day_rows (self_df st)), st'.
  split; [|split; [exact R|]].
  - rewrite filter_by_date_run, Hd. unfold on_day.
    rewrite (filter_ext _ _ (within_same_day_eqb d)). reflexivity.
  - unfold day_rows. split.
    + intros Hne. apply in_map_iff. exists d. split.
      * rewrite (sum_moderate duration), (sum_moderate calories_burned)
          by (apply moderate_filter; assumption).
        reflexivity.
      * apply group_keys_In. destruct (on_day d (self_df st)) as [|r rs] eqn:E;
          [contradiction|].
        assert (Hr : In r (on_day d (self_df st))) by (rewrite E; left; reflexivity).
        apply filter_In in Hr. destruct Hr as [Hin B]. apply datetime_eqb_eq in B.
        exists r. split; assumption.
    + intros Hnil x Hx E. apply in_map_iff in Hx. destruct Hx as (k & <- & Hk).
      cbn [d_date] in E. subst k. apply group_keys_In in Hk.
      destruct Hk as (r & Hin & Hkey).
      assert (Hr : In r (on_day d (self_df st))).
      { apply filter_In. split; [exact Hin | apply datetime_eqb_eq; exact Hkey]. }
      rewrite Hnil in Hr. exact Hr.
Qed.

Lemma day_total_matches_filter_by_date_witness :
  exists rows out st',
    filter_by_date "2024-1-1" "2024-1-1" (mkstate sample_records None true [])
    = (Returned rows, mkstate sample_records None true [])
    /\ daily_summary (mkstate sample_records None true []) = (Returned out, st')
    /\ (rows <> [] ->
        In (mkday (mkdate 2024 1 1) (total duration rows)
                  (total calories_burned rows)) out)
    /\ (rows = [] -> forall x, In x out -> d_date x <> mkdate 2024 1 1).
Proof.
  exact (day_total_matches_filter_by_date (mkstate sample_records None true [])
           "2024-1-1" (mkdate 2024 1 1) eq_refl eq_refl eq_refl).
Defined.

(* ================================================================== *)
(** ** [main_menu] *)

Lemma appends_nothing (s s' : session) :
  self_df (tracker s') = self_df (tracker s) ->
  disk (tracker s') = disk (tracker s) ->
  writable (tracker s') = writable (tracker s) ->
  appends [] s s'.
Proof.
  intros D F W. unfold appends. rewrite app_nil_r.
  split; [exact D|]. split; [constructor|]. split; [exact W|].
  split; [intros _; exact F | intros H; contradiction].
Qed.

Lemma appends_refl (s : session) : appends [] s s.
Proof. apply appends_nothing; reflexivity. Qed.

Lemma appends_trans (a b : DataFrame) (s s1 s2 : session) :
  appends a s s1 -> appends b s1 s2 -> appends (a ++ b) s s2.
Proof.
  intros (D1 & F1 & W1 & N1 & S1) (D2 & F2 & W2 & N2 & S2).
  unfold appends. split; [rewrite D2, D1, app_assoc; reflexivity|].
  split; [apply Forall_app; split; assumption|].
  split; [congruence|]. split.
  - intros E. apply app_eq_nil in E. destruct E as [-> ->].
    rewrite (N2 eq_refl). apply N1. reflexivity.
  - intros Hne W. destruct b as [|r b].
    + rewrite (N2 eq_refl), D2, app_nil_r. apply S1; [|exact W].
      rewrite app_nil_r in Hne. exact Hne.
    + apply S2; [discriminate | congruence].
Qed.

Lemma grows_ret {A} (a : A) : grows 0 (sm_ret a).
Proof.
  intros s. exists []. cbn [sm_ret snd fst]. split; [apply appends_refl|].
  split; [lia|]. split; [intros; lia | discriminate].
Qed.

Lemma grows_weaken {A} (n n' : nat) (m : SM A) : (n' <= n)%nat -> grows n m -> grows n' m.
Proof.
  intros Hn H s. destruct (H s) as (added & Ha & Hl & Hd & Hu).
  exists added. split; [exact Ha|]. split; [exact Hl|]. split; [|exact Hu].
  intros a E. specialize (Hd a E). lia.
Qed.

(** Sequencing, when the values the first call returns are known to meet
    [P]. *)
Lemma grows_bind_when {A B} (n n' : nat) (P : A -> Prop) (m : SM A) (k : A -> SM B) :
  grows n m ->
  (forall s a, fst (m s) = Done a -> P a) ->
  (forall a, P a -> grows n' (k a)) ->
  grows (n + n') (sm_bind m k).
Proof.
  intros Hm HP Hk s. destruct (Hm s) as (a1 & Ha1 & Hl1 & Hd1 & Hu1). unfold sm_bind.
  specialize (HP s).
  destruct (m s) as [[a|why] s1] eqn:E; cbn [fst snd] in *.
  - destruct (Hk a (HP a eq_refl) s1) as (a2 & Ha2 & Hl2 & Hd2 & Hu2).
    exists (a1 ++ a2). split; [exact (appends_trans _ _ _ _ _ Ha1 Ha2)|].
    specialize (Hd1 a eq_refl). split; [lia|]. split; [|exact Hu2].
    intros b Eb. specialize (Hd2 b Eb). lia.
  - exists a1. split; [exact Ha1|]. split; [exact Hl1|]. split.
    + intros b Eb. discriminate Eb.
    + intros Eb. apply Hu1. injection Eb as ->. reflexivity.
Qed.

Lemma grows_bind {A B} (n n' : nat) (m : SM A) (k : A -> SM B) :
  grows n m -> (forall a, grows n' (k a)) -> grows (n + n') (sm_bind m k).
Proof.
  intros Hm Hk. apply (grows_bind_when n n' (fun _ => True)); auto.
Qed.

Lemma grows_call {A} (m : M A) : reads_only m -> grows 0 (call m).
Proof.
  intros H s. exists []. unfold call. destruct (H (tracker s)) as (D & F & W).
  destruct (m (tracker s)) as [[a|e] st']; cbn [fst snd tracker stdin] in *;
    (split; [apply appends_nothing; assumption|]);
    (split; [lia|]); (split; [intros; lia | discriminate]).
Qed.

Lemma grows_input (prompt : string) : grows 1 (input prompt).
Proof.
  intros s. exists []. unfold input. destruct (stdin s) as [|val rest]; cbn [fst snd stdin];
    (split; [apply appends_nothing; reflexivity|]);
    (split; [simpl; lia|]);
    (split; [intros a E; try discriminate E; simpl; lia | discriminate]).
Qed.

Lemma reads_only_print (msg : string) : reads_only (print msg).
Proof. intros st. repeat split. Qed.

Lemma reads_only_daily_summary : reads_only daily_summary.
Proof. intros [[|r df] dk w out0]; repeat split. Qed.

Lemma reads_only_activity_trends : reads_only activity_trends.
Proof. intros [[|r df] dk w out0]; repeat split. Qed.

Lemma reads_only_filter_by_date (start_date end_date : string) :
  reads_only (filter_by_date start_date end_date).
Proof.
  intros st. rewrite filter_by_date_run.
  destruct (strptime start_date); [destruct (strptime end_date)|]; repeat split.
Qed.

Lemma reads_only_filter_by_type (query : string) : reads_only (filter_by_type query).
Proof. intros st. repeat split. Qed.

Lemma reads_only_draw (show : figure -> option exn) (f : figure) : reads_only (draw show f).
Proof. intros st. unfold draw. destruct (show f); repeat split. Qed.

Lemma reads_only_plot_activity_distribution (show : figure -> option exn) :
  reads_only (plot_activity_distribution show).
Proof.
  intros [[|r df] dk w out0]; [repeat split|].
  unfold plot_activity_distribution, bind, get_df. cbn [self_df].
  apply (reads_only_draw show).
Qed.

Lemma reads_only_plot_duration_vs_calories (show : figure -> option exn) :
  reads_only (plot_duration_vs_calories show).
Proof.
  intros [[|r df] dk w out0]; [repeat split|].
  unfold plot_duration_vs_calories, bind, get_df. cbn [self_df].
  apply (reads_only_draw show).
Qed.

Lemma reads_only_plot_calories_over_time (show : figure -> option exn) :
  reads_only (plot_calories_over_time show).
Proof.
  intros st. unfold plot_calories_over_time, bind.
  pose proof (reads_only_daily_summary st) as (D & F & W).
  destruct (daily_summary st) as [[summary|e] st1]; cbn [snd] in *;
    [|repeat split; assumption].
  destruct summary as [|x summary].
  - destruct (reads_only_print "No data to plot." st1) as (D' & F' & W').
    repeat split; congruence.
  - destruct (reads_only_draw show (Lineplot (x :: summary)) st1) as (D' & F' & W').
    repeat split; congruence.
Qed.

Lemma grows_say (msg : string) : grows 0 (say msg).
Proof. apply grows_call, reads_only_print. Qed.

Lemma grows_get_input {A} (prompt : string) (cast_func : string -> option A)
  (condition : A -> option bool) (error : string) :
  grows 1 (get_input prompt cast_func condition error).
Proof.
  intros s. exists [].
  destruct (get_input_cases prompt cast_func condition error s)
    as [(v & s' & typed & val & E & _ & I & D & F & W) | (s' & E & I & D & F & W)];
    rewrite E; cbn [fst snd].
  - split; [apply appends_nothing; assumption|].
    rewrite I, length_app. cbn [List.length].
    split; [lia|]. split; [intros; lia | discriminate].
  - split; [apply appends_nothing; assumption|].
    rewrite I. cbn [List.length].
    split; [lia|]. split; [intros a Ea; discriminate Ea | discriminate].
Qed.

Lemma get_input_returns_taken {A} (prompt : string) (cast_func : string -> option A)
  (condition : A -> option bool) (error : string) (s : session) (v : A) :
  fst (get_input prompt cast_func condition error s) = Done v ->
  exists val, taken cast_func condition val v.
Proof.
  destruct (get_input_cases prompt cast_func condition error s)
    as [(v' & s' & typed & val & E & T & _) | (s' & E & _)]; rewrite E; cbn [fst].
  - intros H. injection H as <-. exists val. exact T.
  - discriminate.
Qed.

Lemma grows_add_activity (dtext act : string) (n c : Z) :
  strptime dtext <> None -> strip act <> "" -> 0 < n -> 0 <= c ->
  grows 0 (call (add_activity dtext act (VInt n) (VInt c))).
Proof.
  intros Hd Ha Hn Hc s. destruct (strptime dtext) as [d|] eqn:E; [|contradiction].
  exists [mkrow d (strip act) n c]. unfold call.
  rewrite (add_activity_run (tracker s) dtext act (VInt n) (VInt c) d n c
             E eq_refl eq_refl).
  rewrite _save_run. cbn [snd fst print tracker stdin].
  split; [|split; [lia | split; [intros; lia | discriminate]]].
  unfold appends. cbn [tracker].
  destruct (writable (tracker s)) eqn:W; cbn [self_df disk writable];
    (split; [reflexivity|]); (split; [|split; [assumption || reflexivity|]]);
    try (split; [discriminate|]);
    try (constructor; [|constructor];
         unfold well_formed, trimmed; cbn [date activity_type duration calories_burned];
         repeat split; try assumption; [exact (strptime_valid _ _ E) | apply strip_idem]).
  - intros _ _. reflexivity.
  - intros _ H. discriminate H.
Qed.

Lemma grows_prompt_activity : grows 4 prompt_activity.
Proof.
  unfold prompt_activity.
  apply (grows_bind_when 1 3 (fun dtext => strptime dtext <> None));
    [apply grows_get_input | |].
  { intros s v H. apply get_input_returns_taken in H. destruct H as (val & C & K).
    unfold is_date in K. destruct (strptime v); [discriminate | discriminate K]. }
  intros dtext Hd.
  apply (grows_bind_when 1 2 (fun act => strip act <> ""));
    [apply grows_get_input | |].
  { intros s v H. apply get_input_returns_taken in H. destruct H as (val & C & K).
    unfold not_blank in K. injection K as K. apply negb_true_iff in K.
    intros E. rewrite E in K. discriminate K. }
  intros act Ha.
  apply (grows_bind_when 1 1 (fun n => 0 < n)); [apply grows_get_input | |].
  { intros s v H. apply get_input_returns_taken in H. destruct H as (val & C & K).
    unfold above_zero in K. injection K as K. apply Z.ltb_lt. exact K. }
  intros n Hn.
  apply (grows_bind_when 1 0 (fun c => 0 <= c)); [apply grows_get_input | |].
  { intros s v H. apply get_input_returns_taken in H. destruct H as (val & C & K).
    unfold zero_or_more in K. injection K as K. apply Z.leb_le. exact K. }
  intros c Hc. apply grows_add_activity; assumption.
Qed.

Section MenuFacts.
Variable to_datetime : list (option string) -> string -> option datetime.
Variable to_numeric : list (option string) -> string -> option Z.
Variable show_summary : list day_total -> string.
Variable show_trends : list trend -> string.
Variable show_frame : DataFrame -> string.
Variable show : figure -> option exn.

Ltac grow :=
  repeat first
    [ apply grows_ret
    | apply grows_say
    | apply grows_call;
      first [ apply reads_only_daily_summary | apply reads_only_activity_trends
            | apply reads_only_filter_by_date | apply reads_only_filter_by_type
            | apply reads_only_plot_activity_distribution
            | apply reads_only_plot_calories_over_time
            | apply reads_only_plot_duration_vs_calories ]
    | apply (grows_weaken 1 0); [lia | apply grows_input]
    | apply (grows_weaken 4 0); [lia | apply grows_prompt_activity]
    | apply (grows_bind 0 0); [|intros ?]
    | match goal with
      | |- grows _ (match ?x with _ => _ end) => destruct x
      | |- grows _ (if ?b then _ else _) => destruct b
      end ].

Lemma grows_menu_turn : grows 1 (menu_turn show_summary show_trends show_frame show).
Proof.
  unfold menu_turn.
  do 8 (apply (grows_bind 0 1); [apply grows_say | intros _]).
  apply (grows_bind 1 0); [apply grows_input | intros choice].
  grow.
Qed.

Lemma goes_on_ret : goes_on (sm_ret true).
Proof. intros s b H. cbn in H. injection H as <-. reflexivity. Qed.

Lemma goes_on_bind {A} (m : SM A) (k : A -> SM bool) :
  (forall a, goes_on (k a)) -> goes_on (sm_bind m k).
Proof.
  intros Hk s b. unfold sm_bind. destruct (m s) as [[a|why] s1].
  - apply Hk.
  - cbn. discriminate.
Qed.

Lemma says_goodbye_when_goes_on (m : SM bool) : goes_on m -> says_goodbye m.
Proof.
  intros H s s' E. specialize (H s false). rewrite E in H.
  specialize (H eq_refl). discriminate H.
Qed.

Lemma says_goodbye_bind {A} (m : SM A) (k : A -> SM bool) :
  (forall a, says_goodbye (k a)) -> says_goodbye (sm_bind m k).
Proof.
  intros Hk s s'. unfold sm_bind. destruct (m s) as [[a|why] s1].
  - apply Hk.
  - discriminate.
Qed.

Lemma says_goodbye_exit : says_goodbye (sm_bind (say "Goodbye!") (fun _ => sm_ret false)).
Proof.
  intros s s' E. cbn in E. injection E as <-. cbn [tracker console].
  eexists. reflexivity.
Qed.

(** A turn says [break] only after the choice 7, having said goodbye. *)
Lemma menu_turn_break : says_goodbye (menu_turn show_summary show_trends show_frame show).
Proof.
  unfold menu_turn.
  do 9 (apply says_goodbye_bind; intros ?).
  repeat match goal with
         | |- says_goodbye (if ?b then _ else _) => destruct b
         end;
    first [ apply says_goodbye_exit
          | apply says_goodbye_when_goes_on;
            repeat (apply goes_on_bind; intros ?); apply goes_on_ret ].
Qed.

Lemma menu_loop_run (turns : nat) (s : session) :
  exists added,
    appends added s (snd (menu_loop show_summary show_trends show_frame show turns s))
    /\ ((List.length (stdin s) < turns)%nat ->
        fst (menu_loop show_summary show_trends show_frame show turns s)
        <> Stopped Unfinished)
    /\ (forall u,
          fst (menu_loop show_summary show_trends show_frame show turns s) = Done u ->
          exists shown,
            console (tracker (snd (menu_loop show_summary show_trends show_frame show turns s)))
            = shown ++ ["Goodbye!"]).
Proof.
  revert s. induction turns as [|turns IH]; intros s.
  - exists []. cbn [menu_loop fst snd]. split; [apply appends_refl|].
    split; [lia | discriminate].
  - cbn [menu_loop]. unfold sm_bind.
    destruct (grows_menu_turn s) as (a1 & Ha1 & Hl1 & Hd1 & Hu1).
    destruct (menu_turn show_summary show_trends show_frame show s)
      as [[[|]|why] s1] eqn:E; cbn [fst snd] in *.
    + destruct (IH s1) as (a2 & Ha2 & Hf2 & Hg2).
      exists (a1 ++ a2). split; [exact (appends_trans _ _ _ _ _ Ha1 Ha2)|].
      split; [|exact Hg2].
      intros Hlen. apply Hf2. specialize (Hd1 true eq_refl). lia.
    + exists a1. split; [exact Ha1|]. split; [discriminate|].
      intros u _. exact (menu_turn_break s s1 E).
    + exists a1. split; [exact Ha1|]. split; [|discriminate].
      intros _ H. apply Hu1. injection H as ->. reflexivity.
Qed.

End MenuFacts.


(* ================================================================== *)
(** ** [plot_calories_over_time] *)

Lemma day_rows_nonempty (df : DataFrame) : df <> [] -> day_rows df <> [].
Proof.
  destruct df as [|r df]; [contradiction|]. intros _ E.
  assert (H : In (date r) (group_keys Datetime.eq_dec Datetime.leb date (r :: df))).
  { apply group_keys_In. exists r. split; [left; reflexivity | reflexivity]. }
  unfold day_rows in E. apply map_eq_nil in E. rewrite E in H. exact H.
Qed.

(** [plot_calories_over_time] draws exactly when the frame has a record:
    on an empty frame it prints the notice of [daily_summary] and then its
    own and draws nothing; otherwise it prints nothing and hands the day
    totals, one point per day, to the drawing call. *)
Theorem plot_calories_over_time_draws (show : figure -> option exn) (st : state) :
  match self_df st with
  | [] =>
      plot_calories_over_time show st
      = (Returned tt,
         mkstate [] (disk st) (writable st)
                 (console st ++ ["No data available."; "No data to plot."]))
  | _ =>
      day_rows (self_df st) <> []
      /\ plot_calories_over_time show st
         = draw show (Lineplot (day_rows (self_df st))) st
  end.
Proof.
  destruct st as [[|r df] dk w out0]; cbn [self_df disk writable console].
  - unfold plot_calories_over_time, bind. cbn. unfold print.
    cbn [self_df disk writable console]. rewrite <- app_assoc. reflexivity.
  - split; [apply day_rows_nonempty; discriminate|].
    unfold plot_calories_over_time, bind at 1.
    destruct (daily_summary_rows (mkstate (r :: df) dk w out0)) as (st' & R).
    assert (S : st' = mkstate (r :: df) dk w out0).
    { revert R. unfold daily_summary, bind, get_df, ret. cbn [self_df].
      intros R. injection R as _ R. symmetry. exact R. }
    rewrite R, S. cbn [self_df].
    destruct (day_rows (r :: df)) as [|x rows] eqn:E; [|reflexivity].
    exfalso. apply (day_rows_nonempty (r :: df)); [discriminate | exact E].
Qed.
